(** * RescueTime daily report: a shallow embedding of [daily_report.py]

    The script fetches one day of RescueTime rows, aggregates them by hour
    and by category, renders a markdown report and mails it.  This file
    embeds the aggregation and rendering ([format_duration],
    [get_productivity_label], [generate_report]) and the control flow of
    [main], and proves the properties stated for them.

    Python integers are unbounded, so they are [Z]; [//] and [%] with a
    positive divisor are [Z.div] and [Z.modulo] (both floor).  Python
    strings are modelled by their UTF-8 bytes.  A [dict] keeps insertion
    order, which the report depends on, so the two accumulating
    dictionaries are association lists; the JSON payload and the process
    environment, which are only looked up, are [gmap]s. *)

From Stdlib Require Import ZArith Lia List Ascii String Sorting.Sorted Sorting.Permutation.
From stdpp Require Import base option gmap strings pretty.

Local Open Scope string_scope.
Local Open Scope Z_scope.

(** ** Exceptions and results *)

Inductive exn : Type :=
  | ValueError (msg : string)
  | IndexError
  | ZeroDivisionError
  | ConnectionError
  | HTTPError (status : Z)
  | JSONDecodeError.

Inductive result (A : Type) : Type :=
  | Ok (a : A)
  | Raise (e : exn).

Arguments Ok {A} a.
Arguments Raise {A} e.

Definition rbind {A B : Type} (r : result A) (k : A -> result B) : result B :=
  match r with
  | Ok a => k a
  | Raise e => Raise e
  end.

Declare Scope result_scope.
Delimit Scope result_scope with result.
Notation "x <-- r ;; k" := (rbind r (fun x => k))
  (at level 100, r at next level, right associativity) : result_scope.

(** ** Strings and numbers as Python prints them *)

Definition nl : string := String (ascii_of_nat 10) EmptyString.

(** [str(n)] for an [int]. *)
Definition str_int (n : Z) : string := pretty n.

(** The format spec [:02d], and the same with width 4: zero padding on the
    left up to the width, the sign included in the width. *)
Definition zero_pad (width : nat) (n : Z) : string :=
  let digits := str_int (Z.abs n) in
  let sign := if (n <? 0)%Z then "-" else "" in
  let used := (String.length sign + String.length digits)%nat in
  sign +:+ string_of_list_ascii (repeat "0"%char (width - used)) +:+ digits.

(** [s.replace(old, new)] for a one-character [old]. *)
Fixpoint replace_char (old : ascii) (new : string) (s : string) : string :=
  match s with
  | EmptyString => EmptyString
  | String c s' =>
      if Ascii.eqb c old then new +:+ replace_char old new s'
      else String c (replace_char old new s')
  end.

(** Truthiness of an [int] and of an optional string ([None] and [""] are
    falsy). *)
Definition truthy_int (n : Z) : bool := negb (n =? 0).

Definition truthy_str (s : option string) : bool :=
  match s with
  | None | Some EmptyString => false
  | Some _ => true
  end.

(** [a // b] raises on a zero divisor. *)
Definition floordiv (a b : Z) : result Z :=
  if b =? 0 then Raise ZeroDivisionError else Ok (a / b).

(** ** Dates *)

Record datetime : Type := mk_datetime {
  year : Z; month : Z; day : Z; hour : Z; minute : Z; second : Z
}.

(** [strftime("%Hh")], [strftime("%Y-%m-%d")], [strftime("%d/%m/%Y")]. *)
Definition strftime_Hh (d : datetime) : string := zero_pad 2 (hour d) +:+ "h".

Definition strftime_Ymd (d : datetime) : string :=
  zero_pad 4 (year d) +:+ "-" +:+ zero_pad 2 (month d) +:+ "-" +:+ zero_pad 2 (day d).

Definition strftime_dmY (d : datetime) : string :=
  zero_pad 2 (day d) +:+ "/" +:+ zero_pad 2 (month d) +:+ "/" +:+ zero_pad 4 (year d).

(** ** [format_duration] and [get_productivity_label] *)

Definition format_duration (seconds : Z) : string :=
  let hours := seconds / 3600 in
  let minutes := (seconds mod 3600) / 60 in
  if (0 <? hours)%Z then str_int hours +:+ "h" +:+ zero_pad 2 minutes
  else str_int minutes +:+ "min".

Definition get_productivity_label (score : Z) : string :=
  match score with
  | 2 => "🟢 Très productif"
  | 1 => "🔵 Productif"
  | 0 => "⚪ Neutre"
  | -1 => "🟠 Distrayant"
  | -2 => "🔴 Très distrayant"
  | _ => "⚪ Neutre"
  end.

(** ** Dictionaries that keep insertion order

    [hourly_data] and [category_totals] are iterated after they are built,
    so the order in which keys were first inserted is part of the model. *)

Definition dict (V : Type) : Type := list (string * V).

Fixpoint dict_get {V : Type} (d : dict V) (k : string) : option V :=
  match d with
  | [] => None
  | (k', v) :: d' => if String.eqb k' k then Some v else dict_get d' k
  end.

(** [d[k] = v]: an existing key keeps its position, a new key goes last. *)
Fixpoint dict_set {V : Type} (d : dict V) (k : string) (v : V) : dict V :=
  match d with
  | [] => [(k, v)]
  | (k', v') :: d' =>
      if String.eqb k' k then (k', v) :: d' else (k', v') :: dict_set d' k v
  end.

(** An in-place update of [d[k]] on a [defaultdict]: a missing key is first
    created with the default value. *)
Definition dict_update {V : Type} (dflt : V) (d : dict V) (k : string)
    (f : V -> V) : dict V :=
  dict_set d k (f (default dflt (dict_get d k))).

Definition keys {V : Type} (d : dict V) : list string := map fst d.
Definition values {V : Type} (d : dict V) : list V := map snd d.

(** ** [sorted]

    Python's [sorted] is stable, also with [reverse=True]: elements that
    compare equal keep their original relative order.  A stable sort has
    one possible result, so an insertion sort that places each element in
    front of the first later element it may precede computes it.
    [before x y] says that [x] may stand in front of [y]. *)

Fixpoint insert_sorted {A : Type} (before : A -> A -> bool) (x : A)
    (l : list A) : list A :=
  match l with
  | [] => [x]
  | y :: l' => if before x y then x :: y :: l' else y :: insert_sorted before x l'
  end.

Definition py_sorted {A : Type} (before : A -> A -> bool) (l : list A) : list A :=
  fold_right (insert_sorted before) [] l.

(** [sorted(xs)] on strings, and [sorted(xs, key=k, reverse=True)] on an
    integer key. *)
Definition str_ascending (x y : string) : bool := String.leb x y.

Definition descending {A : Type} (key : A -> Z) (x y : A) : bool :=
  key y <=? key x.

(** ** Data model *)

(** One row of the provider's table: [row[0]] ... [row[5]]. *)
Record ActivityRow : Type := mk_row {
  row_timestamp : string;
  row_seconds : Z;
  row_people : Z;
  row_activity : string;
  row_category : string;
  row_productivity : Z
}.

(** The dictionary appended to an hour's ["activities"] list. *)
Record Activity : Type := mk_activity {
  name : string;
  seconds : Z;
  productivity : Z;
  category : string
}.

Record HourBucket : Type := mk_bucket {
  activities : list Activity;
  total_seconds : Z;
  productive_seconds : Z;
  distracting_seconds : Z
}.

(** The value the [defaultdict] creates for a new hour. *)
Definition new_bucket : HourBucket :=
  {| activities := []; total_seconds := 0;
     productive_seconds := 0; distracting_seconds := 0 |}.

(** The local variables of [generate_report] that the loop updates. *)
Record Totals : Type := mk_totals {
  hourly_data : dict HourBucket;
  category_totals : dict Z;
  total_productive : Z;
  total_distracting : Z;
  total_time : Z
}.

Definition initial_totals : Totals :=
  {| hourly_data := []; category_totals := [];
     total_productive := 0; total_distracting := 0; total_time := 0 |}.

(** A member of the fetched JSON object: a text (["notes"]) or an array of
    rows (["rows"]). *)
Inductive member : Type :=
  | MText (s : string)
  | MRows (rows : list ActivityRow).

Definition no_data : string :=
  "Aucune donnée RescueTime disponible pour aujourd'hui.".

Definition add_activity (act : Activity) (b : HourBucket) : HourBucket :=
  {| activities := (activities b ++ [act])%list; total_seconds := total_seconds b;
     productive_seconds := productive_seconds b;
     distracting_seconds := distracting_seconds b |}.

Definition add_total (s : Z) (b : HourBucket) : HourBucket :=
  {| activities := activities b; total_seconds := total_seconds b + s;
     productive_seconds := productive_seconds b;
     distracting_seconds := distracting_seconds b |}.

Definition add_productive (s : Z) (b : HourBucket) : HourBucket :=
  {| activities := activities b; total_seconds := total_seconds b;
     productive_seconds := productive_seconds b + s;
     distracting_seconds := distracting_seconds b |}.

Definition add_distracting (s : Z) (b : HourBucket) : HourBucket :=
  {| activities := activities b; total_seconds := total_seconds b;
     productive_seconds := productive_seconds b;
     distracting_seconds := distracting_seconds b + s |}.

Definition activity_of (row : ActivityRow) : Activity :=
  {| name := row_activity row; seconds := row_seconds row;
     productivity := row_productivity row; category := row_category row |}.

(** [total*100//total_time if total_time else 0] *)
Definition percentage (part total : Z) : result Z :=
  if truthy_int total then floordiv (part * 100) total else Ok 0.

Definition top_activities (b : HourBucket) : list Activity :=
  firstn 3 (py_sorted (descending seconds) (activities b)).

Definition render_activity (act : Activity) : string :=
  "- **" +:+ name act +:+ "** (" +:+ format_duration (seconds act) +:+ ") "
  +:+ get_productivity_label (productivity act) +:+ nl.

Definition render_hour (hour : string) (b : HourBucket) : string :=
  "### " +:+ hour +:+ " - " +:+ format_duration (total_seconds b) +:+ nl
  +:+ String.concat "" (map render_activity (top_activities b)) +:+ nl.

Definition sorted_categories (t : Totals) : list (string * Z) :=
  py_sorted (descending snd) (category_totals t).

Definition render_category (item : string * Z) : string :=
  "| " +:+ fst item +:+ " | " +:+ format_duration (snd item) +:+ " |" +:+ nl.

(** The bucket read by [hourly_data[hour]]. *)
Definition bucket_at (t : Totals) (hour : string) : HourBucket :=
  default new_bucket (dict_get (hourly_data t) hour).

Definition render_hours (t : Totals) : string :=
  String.concat ""
    (map (fun hour => render_hour hour (bucket_at t hour))
         (py_sorted str_ascending (keys (hourly_data t)))).

Definition report_title (now : datetime) : string :=
  "# 📊 Rapport RescueTime - " +:+ strftime_dmY now +:+ nl +:+ nl.

(** Lines 70 to 92: the report text once the loop is over. *)
Definition render (now : datetime) (t : Totals) : result string :=
  (let report := report_title now in
   let report := report +:+ "**Temps total suivi** : "
                 +:+ format_duration (total_time t) +:+ nl in
   pct <-- percentage (total_productive t) (total_time t);;
   let report := report +:+ "**Temps productif** : "
                 +:+ format_duration (total_productive t)
                 +:+ " (" +:+ str_int pct +:+ "%)" +:+ nl in
   pct <-- percentage (total_distracting t) (total_time t);;
   let report := report +:+ "**Temps distrayant** : "
                 +:+ format_duration (total_distracting t)
                 +:+ " (" +:+ str_int pct +:+ "%)" +:+ nl +:+ nl in
   let report := report +:+ "---" +:+ nl +:+ nl +:+ "## 🕐 Détail par heure"
                 +:+ nl +:+ nl in
   let report := report +:+ render_hours t in
   let report := report +:+ "---" +:+ nl +:+ nl
                 +:+ "## 📂 Récapitulatif par catégorie" +:+ nl +:+ nl in
   let report := report +:+ "| Catégorie | Temps |" +:+ nl
                 +:+ "|-----------|-------|" +:+ nl in
   let report := report
                 +:+ String.concat "" (map render_category (sorted_categories t)) in
   Ok report)%result.

(** ** A parser for the provider's timestamps

    RescueTime sends [YYYY-MM-DDTHH:MM:SS].  [parse_timestamp] accepts that
    shape, with any separator character and an optional [+HH:MM] or
    [-HH:MM] offset, and checks the calendar.  It is the instance of the
    library's [fromisoformat] on which the report is run on concrete rows
    below; the theorems hold for every parser. *)

Definition digit (c : ascii) : option Z :=
  let n := Z.of_nat (nat_of_ascii c) in
  if (48 <=? n) && (n <=? 57) then Some (n - 48) else None.

Fixpoint digits (acc : Z) (s : string) : option Z :=
  match s with
  | EmptyString => Some acc
  | String c s' => d ← digit c; digits (10 * acc + d) s'
  end.

Definition field (s : string) (start len : nat) : option Z :=
  let part := substring start len s in
  if Nat.eqb (String.length part) len then digits 0 part else None.

Definition in_range (lo hi : Z) (n : Z) : option Z :=
  if (lo <=? n) && (n <=? hi) then Some n else None.

Definition expect (s : string) (pos : nat) (c : string) : option unit :=
  if String.eqb (substring pos 1 s) c then Some tt else None.

Definition days_in_month (y m : Z) : Z :=
  if m =? 2 then
    if ((y mod 4 =? 0) && negb (y mod 100 =? 0)) || (y mod 400 =? 0)
    then 29 else 28
  else if (m =? 4) || (m =? 6) || (m =? 9) || (m =? 11) then 30
  else 31.

Definition utc_offset (s : string) : option unit :=
  match s with
  | EmptyString => Some tt
  | _ =>
      if Nat.eqb (String.length s) 6 then
        _ ← (if String.eqb (substring 0 1 s) "+" then Some tt else expect s 0 "-");
        _ ← field s 1 2 ≫= in_range 0 23;
        _ ← expect s 3 ":";
        _ ← field s 4 2 ≫= in_range 0 59;
        Some tt
      else None
  end.

Definition parse_timestamp (s : string) : option datetime :=
  y ← field s 0 4 ≫= in_range 1 9999;
  _ ← expect s 4 "-";
  mo ← field s 5 2 ≫= in_range 1 12;
  _ ← expect s 7 "-";
  d ← field s 8 2 ≫= in_range 1 (days_in_month y mo);
  _ ← (if Nat.eqb (String.length (substring 10 1 s)) 1 then Some tt else None);
  h ← field s 11 2 ≫= in_range 0 23;
  _ ← expect s 13 ":";
  mi ← field s 14 2 ≫= in_range 0 59;
  _ ← expect s 16 ":";
  se ← field s 17 2 ≫= in_range 0 59;
  _ ← utc_offset (substring 19 (String.length s - 19) s);
  Some (mk_datetime y mo d h mi se).

(** ** The run: configuration, network and console

    The module reads three environment variables when it is loaded.  The
    two HTTP calls and the three readings of the clock are inputs of a
    run, gathered in [World]; what a run does is the list of its console
    and network events, in order, with its result. *)

Definition RESCUETIME_API_KEY (environ : gmap string string) : option string :=
  environ !! "RESCUETIME_API_KEY".

Definition RESEND_API_KEY (environ : gmap string string) : option string :=
  environ !! "RESEND_API_KEY".

Definition EMAIL_TO (environ : gmap string string) : string :=
  default "lucjager67@gmail.com" (environ !! "EMAIL_TO").

Record email : Type := mk_email {
  email_from : string;
  email_to : list string;
  email_subject : string;
  email_html : string
}.

Inductive event : Type :=
  | Print (text : string)
  | HttpGet (url : string) (params : list (string * option string))
  | HttpPost (url : string) (headers : list (string * string)) (payload : email).

(** What [requests] gets back: no answer, or a status with a body that
    is JSON ([Some]) or not. *)
Inductive reply (A : Type) : Type :=
  | NoReply
  | Reply (status : Z) (body : option A).

Arguments NoReply {A}.
Arguments Reply {A} status body.

Record World : Type := mk_world {
  now_fetch : datetime;
  now_report : datetime;
  now_main : datetime;
  analytics_api : list (string * option string) -> reply (gmap string member);
  email_api : list (string * string) -> email -> reply (gmap string string)
}.

Definition io (A : Type) : Type := (list event * result A)%type.

Definition io_ret {A : Type} (a : A) : io A := ([], Ok a).

Definition io_raise {A : Type} (e : exn) : io A := ([], Raise e).

Definition io_bind {A B : Type} (m : io A) (k : A -> io B) : io B :=
  match m with
  | (seen, Ok a) => let (more, r) := k a in ((seen ++ more)%list, r)
  | (seen, Raise e) => (seen, Raise e)
  end.

Definition emit (ev : event) : io unit := ([ev], Ok tt).

Definition lift {A : Type} (r : result A) : io A := ([], r).

Declare Scope io_scope.
Delimit Scope io_scope with io.
Notation "x <~ m ;; k" := (io_bind m (fun x => k))
  (at level 100, m at next level, right associativity) : io_scope.
Notation "m ;;; k" := (io_bind m (fun _ => k))
  (at level 100, right associativity) : io_scope.

(** [response.raise_for_status()] then [response.json()]. *)
Definition json_of_reply {A : Type} (r : reply A) : io A :=
  match r with
  | NoReply => io_raise ConnectionError
  | Reply status body =>
      if (400 <=? status) && (status <? 600) then io_raise (HTTPError status)
      else match body with
           | Some v => io_ret v
           | None => io_raise JSONDecodeError
           end
  end.

Definition get_rescuetime_data (environ : gmap string string) (w : World)
    : io (gmap string member) :=
  (let today := strftime_Ymd (now_fetch w) in
   let url := "https://www.rescuetime.com/anapi/data" in
   let params :=
     [("key", RESCUETIME_API_KEY environ);
      ("perspective", Some "interval");
      ("resolution_time", Some "hour");
      ("restrict_begin", Some today);
      ("restrict_end", Some today);
      ("format", Some "json")] in
   emit (HttpGet url params);;;
   json_of_reply (analytics_api w params))%io.

Definition send_email (environ : gmap string string) (w : World)
    (subject body : string) : io (gmap string string) :=
  (let url := "https://api.resend.com/emails" in
   let headers :=
     [("Authorization", "Bearer " +:+ default "None" (RESEND_API_KEY environ));
      ("Content-Type", "application/json")] in
   let payload :=
     {| email_from := "RescueTime Report <onboarding@resend.dev>";
        email_to := [EMAIL_TO environ];
        email_subject := subject;
        email_html :=
          "<pre style='font-family: monospace; white-space: pre-wrap;'>"
          +:+ body +:+ "</pre>" |} in
   emit (HttpPost url headers payload);;;
   json_of_reply (email_api w headers payload))%io.

(** An event that reaches the network. *)
Definition is_network (ev : event) : bool :=
  match ev with
  | Print _ => false
  | HttpGet _ _ | HttpPost _ _ _ => true
  end.

(** ** Sample inputs

    The two rows of the documented example, a busier day, and two days
    that differ only in the order of two rows of equal duration. *)

Definition sample_now : datetime := mk_datetime 2024 1 15 23 30 0.

Definition sample_rows : list ActivityRow :=
  [mk_row "2024-01-15T09:00:00" 3600 1 "A" "Work" 2;
   mk_row "2024-01-15T09:00:00" 1800 1 "B" "Social" (-2)].

Definition busy_rows : list ActivityRow :=
  [mk_row "2024-01-15T09:00:00" 600 1 "mail" "Communication" 0;
   mk_row "2024-01-15T10:00:00Z" 1200 1 "video" "Entertainment" (-2);
   mk_row "2024-01-15T09:00:00" 1500 1 "editor" "Development" 2;
   mk_row "2024-01-15T09:00:00" 300 1 "chat" "Communication" (-1);
   mk_row "2024-01-15T09:00:00" 900 1 "terminal" "Development" 2;
   mk_row "2024-01-15T08:00:00+00:00" 1200 1 "docs" "Reference" 1].

Definition tie_rows_ab : list ActivityRow :=
  [mk_row "2024-01-15T09:00:00" 60 1 "x" "A" 0;
   mk_row "2024-01-15T09:00:00" 60 1 "y" "B" 0].

Definition tie_rows_ba : list ActivityRow :=
  [mk_row "2024-01-15T09:00:00" 60 1 "y" "B" 0;
   mk_row "2024-01-15T09:00:00" 60 1 "x" "A" 0].

(** ** Quantities the properties are stated with *)

Definition sum_Z (l : list Z) : Z := fold_right Z.add 0 l.

(** The sum of one numeric field over the values of a dictionary. *)
Definition weight_sum {V : Type} (w : V -> Z) (d : dict V) : Z :=
  sum_Z (map w (values d)).

(** The seconds of the rows selected by [keep]. *)
Definition seconds_where (keep : ActivityRow -> bool) (rows : list ActivityRow) : Z :=
  sum_Z (map row_seconds (List.filter keep rows)).

Definition is_productive (row : ActivityRow) : bool := 1 <=? row_productivity row.
Definition is_distracting (row : ActivityRow) : bool := row_productivity row <=? -1.
Definition is_neutral (row : ActivityRow) : bool :=
  negb (is_productive row) && negb (is_distracting row).

Definition has_category (c : string) (row : ActivityRow) : bool :=
  String.eqb (row_category row) c.

(** The order of the report: [x] stands before [y] when its key is at
    least as large. *)
Definition not_smaller {A : Type} (key : A -> Z) (x y : A) : Prop :=
  key y <= key x.

(** The text [render] builds when the two percentages are [pp] and [pd]. *)
Definition report_with (now : datetime) (t : Totals) (pp pd : Z) : string :=
  let report := report_title now in
  let report := report +:+ "**Temps total suivi** : "
                +:+ format_duration (total_time t) +:+ nl in
  let report := report +:+ "**Temps productif** : "
                +:+ format_duration (total_productive t)
                +:+ " (" +:+ str_int pp +:+ "%)" +:+ nl in
  let report := report +:+ "**Temps distrayant** : "
                +:+ format_duration (total_distracting t)
                +:+ " (" +:+ str_int pd +:+ "%)" +:+ nl +:+ nl in
  let report := report +:+ "---" +:+ nl +:+ nl +:+ "## 🕐 Détail par heure"
                +:+ nl +:+ nl in
  let report := report +:+ render_hours t in
  let report := report +:+ "---" +:+ nl +:+ nl
                +:+ "## 📂 Récapitulatif par catégorie" +:+ nl +:+ nl in
  let report := report +:+ "| Catégorie | Temps |" +:+ nl
                +:+ "|-----------|-------|" +:+ nl in
  report +:+ String.concat "" (map render_category (sorted_categories t)).

(** ** Further quantities *)

Definition is_get (ev : event) : bool :=
  match ev with
  | HttpGet _ _ => true
  | _ => false
  end.

Definition is_post (ev : event) : bool :=
  match ev with
  | HttpPost _ _ _ => true
  | _ => false
  end.


(** The seconds of the activities of a bucket selected by [keep]. *)
Definition activity_seconds (keep : Activity -> bool) (b : HourBucket) : Z :=
  sum_Z (map seconds (List.filter keep (activities b))).

(** The distinct elements of [l] that are not in [seen], each at its
    first occurrence. *)
Fixpoint first_seen (seen l : list string) : list string :=
  match l with
  | [] => []
  | x :: l' =>
      if existsb (String.eqb x) seen then first_seen seen l'
      else x :: first_seen (x :: seen) l'
  end.

(** [datetime.fromisoformat] belongs to the Python library, not to the
    script; the development is parametric in it.  [None] stands for the
    [ValueError] it raises on a string it does not accept. *)
Class IsoParser : Type := fromisoformat : string -> option datetime.

Section Report.

Context {parser : IsoParser}.

(** Line 56. *)
Definition hour_label (timestamp : string) : result string :=
  match fromisoformat (replace_char "Z" "+00:00" timestamp) with
  | Some d => Ok (strftime_Hh d)
  | None => Raise (ValueError "Invalid isoformat string")
  end.

(** One iteration of the loop, lines 55 to 68. *)
Definition step (t : Totals) (row : ActivityRow) : result Totals :=
  (hour <-- hour_label (row_timestamp row);;
   let seconds := row_seconds row in
   let productivity := row_productivity row in
   let hd := dict_update new_bucket (hourly_data t) hour
               (add_activity (activity_of row)) in
   let hd := dict_update new_bucket hd hour (add_total seconds) in
   let ct := dict_update 0 (category_totals t) (row_category row)
               (fun n => n + seconds) in
   let tt := total_time t + seconds in
   if 1 <=? productivity then
     Ok {| hourly_data := dict_update new_bucket hd hour (add_productive seconds);
           category_totals := ct;
           total_productive := total_productive t + seconds;
           total_distracting := total_distracting t;
           total_time := tt |}
   else if productivity <=? -1 then
     Ok {| hourly_data := dict_update new_bucket hd hour (add_distracting seconds);
           category_totals := ct;
           total_productive := total_productive t;
           total_distracting := total_distracting t + seconds;
           total_time := tt |}
   else
     Ok {| hourly_data := hd; category_totals := ct;
           total_productive := total_productive t;
           total_distracting := total_distracting t;
           total_time := tt |})%result.

(** The [for] loop, from a given state of the local variables. *)
Fixpoint aggregate_from (t : Totals) (rows : list ActivityRow) : result Totals :=
  match rows with
  | [] => Ok t
  | row :: rows' => (t' <-- step t row;; aggregate_from t' rows')%result
  end.

Definition aggregate (rows : list ActivityRow) : result Totals :=
  aggregate_from initial_totals rows.

(** [generate_report(data)].  [data.get("rows", [])] may be absent (then
    it is []), an empty array or text (falsy, so the fixed message is
    returned), a non-empty text (its first character is a one-character
    string, on which [row[1]] raises [IndexError]) or a non-empty array
    of rows. *)
Definition generate_report (now : datetime) (data : gmap string member)
    : result string :=
  match default (MRows []) (data !! "rows") with
  | MRows [] | MText EmptyString => Ok no_data
  | MText _ => Raise IndexError
  | MRows rows => (t <-- aggregate rows;; render now t)%result
  end.

(** ** [main] *)

Definition main (environ : gmap string string) (w : World) : io unit :=
  (if negb (truthy_str (RESCUETIME_API_KEY environ)) then
     io_raise (ValueError "RESCUETIME_API_KEY non définie")
   else if negb (truthy_str (RESEND_API_KEY environ)) then
     io_raise (ValueError "RESEND_API_KEY non définie")
   else
     emit (Print "Récupération des données RescueTime...");;;
     data <~ get_rescuetime_data environ w;;
     emit (Print "Génération du rapport...");;;
     report <~ lift (generate_report (now_report w) data);;
     let today := strftime_dmY (now_main w) in
     let subject := "📊 Rapport RescueTime - " +:+ today in
     emit (Print "Envoi de l'email...");;;
     result <~ send_email environ w subject report;;
     emit (Print ("Email envoyé avec succès ! ID: "
                  +:+ default "None" (result !! "id"))))%io.

(** The rows whose timestamp falls in the hour labelled [h]. *)
Definition in_hour (h : string) (row : ActivityRow) : bool :=
  match hour_label (row_timestamp row) with
  | Ok h' => String.eqb h' h
  | Raise _ => false
  end.

(** A row the loop can process: its timestamp, once [Z] is rewritten, is
    accepted by the parser. *)
Definition well_formed (row : ActivityRow) : Prop :=
  is_Some (fromisoformat (replace_char "Z" "+00:00" (row_timestamp row))).

End Report.

(** ** The report on the sample inputs

    Here the parser is [parse_timestamp]. *)

Definition totals_of (rows : list ActivityRow) : Totals :=
  match aggregate (parser := parse_timestamp) rows with
  | Ok t => t
  | Raise _ => initial_totals
  end.

Definition sample_totals : Totals := Eval vm_compute in totals_of sample_rows.
Definition busy_totals : Totals := Eval vm_compute in totals_of busy_rows.

Definition sample_data : gmap string member :=
  {[ "notes" := MText "data is an array of arrays"; "rows" := MRows sample_rows ]}.

(** A world in which both services answer. *)
Definition sample_world : World :=
  {| now_fetch := sample_now; now_report := sample_now; now_main := sample_now;
     analytics_api := fun _ => Reply 200 (Some sample_data);
     email_api := fun _ _ => Reply 200 (Some {[ "id" := "msg-1" ]}) |}.

(** An environment with both keys, and worlds in which one stage fails
    or the day is empty. *)
Definition sample_environ : gmap string string :=
  {[ "RESCUETIME_API_KEY" := "k1"; "RESEND_API_KEY" := "k2" ]}.

Definition offline_world : World :=
  {| now_fetch := sample_now; now_report := sample_now; now_main := sample_now;
     analytics_api := fun _ => NoReply;
     email_api := fun _ _ => Reply 200 (Some {[ "id" := "msg-1" ]}) |}.

Definition bad_rows : list ActivityRow := [mk_row "yesterday" 60 1 "x" "A" 0].

Definition bad_rows_world : World :=
  {| now_fetch := sample_now; now_report := sample_now; now_main := sample_now;
     analytics_api := fun _ => Reply 200 (Some {[ "rows" := MRows bad_rows ]});
     email_api := fun _ _ => Reply 200 (Some {[ "id" := "msg-1" ]}) |}.

Definition rejecting_mail_world : World :=
  {| now_fetch := sample_now; now_report := sample_now; now_main := sample_now;
     analytics_api := fun _ => Reply 200 (Some sample_data);
     email_api := fun _ _ => Reply 422 None |}.

Definition quiet_day : gmap string member := {[ "notes" := MText "no rows today" ]}.

Definition quiet_day_world : World :=
  {| now_fetch := sample_now; now_report := sample_now; now_main := sample_now;
     analytics_api := fun _ => Reply 200 (Some quiet_day);
     email_api := fun _ _ => Reply 200 (Some {[ "id" := "msg-2" ]}) |}.

(** * Properties *)

Section Properties.

Context {parser : IsoParser}.

(** ** Dictionaries *)

Lemma dict_get_set {V : Type} (d : dict V) (k k' : string) (v : V) :
  dict_get (dict_set d k v) k' =
  if String.eqb k k' then Some v else dict_get d k'.
Proof.
  induction d as [|[k0 v0] d IH]; simpl.
  - reflexivity.
  - destruct (String.eqb k0 k) eqn:E0; simpl.
    + apply String.eqb_eq in E0; subst k0.
      destruct (String.eqb k k'); reflexivity.
    + rewrite IH. destruct (String.eqb k0 k') eqn:E1; [|reflexivity].
      destruct (String.eqb k k') eqn:E2; [|reflexivity].
      apply String.eqb_eq in E1, E2. apply String.eqb_neq in E0. congruence.
Qed.

Lemma dict_get_update {V : Type} (dflt : V) (d : dict V) (k k' : string)
    (f : V -> V) :
  dict_get (dict_update dflt d k f) k' =
  if String.eqb k k' then Some (f (default dflt (dict_get d k)))
  else dict_get d k'.
Proof. unfold dict_update. apply dict_get_set. Qed.

Lemma weight_sum_update {V : Type} (w : V -> Z) (dflt : V) (d : dict V)
    (k : string) (f : V -> V) (delta : Z) :
  w dflt = 0 ->
  (forall v, w (f v) = w v + delta) ->
  weight_sum w (dict_update dflt d k f) = weight_sum w d + delta.
Proof.
  intros Hdflt Hf. unfold dict_update, weight_sum, values.
  induction d as [|[k0 v0] d IH]; simpl.
  - rewrite Hf, Hdflt. lia.
  - destruct (String.eqb k0 k); simpl.
    + rewrite Hf. lia.
    + rewrite IH. lia.
Qed.

Lemma weight_sum_update_same {V : Type} (w : V -> Z) (dflt : V) (d : dict V)
    (k : string) (f : V -> V) :
  w dflt = 0 ->
  (forall v, w (f v) = w v) ->
  weight_sum w (dict_update dflt d k f) = weight_sum w d.
Proof.
  intros Hdflt Hf.
  rewrite (weight_sum_update w dflt d k f 0); [lia | assumption |].
  intro v. rewrite Hf. lia.
Qed.

(** Rewrites the sum of a field over an updated dictionary. *)
Ltac dict_sums :=
  repeat first
    [ rewrite weight_sum_update_same by (try intro; reflexivity)
    | erewrite weight_sum_update by (try intro; reflexivity) ].

Lemma keys_set {V : Type} (d : dict V) (k : string) (v : V) :
  keys (dict_set d k v) =
  match dict_get d k with
  | Some _ => keys d
  | None => (keys d ++ [k])%list
  end.
Proof.
  unfold keys. induction d as [|[k0 v0] d IH]; simpl.
  - reflexivity.
  - destruct (String.eqb k0 k); simpl; [reflexivity|].
    rewrite IH. destruct (dict_get d k); reflexivity.
Qed.

Lemma dict_get_keys {V : Type} (d : dict V) (k : string) :
  In k (keys d) <-> is_Some (dict_get d k).
Proof.
  unfold keys. induction d as [|[k0 v0] d IH]; simpl.
  - split; [tauto | intros [v Hv]; discriminate].
  - destruct (String.eqb k0 k) eqn:E.
    + apply String.eqb_eq in E. split; eauto.
    + apply String.eqb_neq in E. rewrite <- IH. tauto.
Qed.

(** ** One iteration of the loop *)

(** What [step] does to the scalar totals and to the sums over the two
    dictionaries. *)
Lemma step_totals (t t' : Totals) (row : ActivityRow) :
  step t row = Ok t' ->
  total_time t' = total_time t + row_seconds row /\
  total_productive t' =
    total_productive t + (if is_productive row then row_seconds row else 0) /\
  total_distracting t' =
    total_distracting t + (if is_distracting row then row_seconds row else 0) /\
  weight_sum total_seconds (hourly_data t') =
    weight_sum total_seconds (hourly_data t) + row_seconds row /\
  weight_sum id (category_totals t') =
    weight_sum id (category_totals t) + row_seconds row /\
  weight_sum productive_seconds (hourly_data t') =
    weight_sum productive_seconds (hourly_data t)
    + (if is_productive row then row_seconds row else 0) /\
  weight_sum distracting_seconds (hourly_data t') =
    weight_sum distracting_seconds (hourly_data t)
    + (if is_distracting row then row_seconds row else 0).
Proof.
  unfold step, is_productive, is_distracting.
  destruct (hour_label (row_timestamp row)) as [h|e]; simpl; [|discriminate].
  destruct (1 <=? row_productivity row) eqn:Hp;
    [|destruct (row_productivity row <=? -1) eqn:Hd];
    intros [= <-]; simpl; dict_sums;
    try (assert ((row_productivity row <=? -1) = false) as -> by lia);
    repeat split; lia.
Qed.

(** ** The whole loop *)

Lemma seconds_where_cons (keep : ActivityRow -> bool) (row : ActivityRow)
    (rows : list ActivityRow) :
  seconds_where keep (row :: rows) =
  (if keep row then row_seconds row else 0) + seconds_where keep rows.
Proof. unfold seconds_where. simpl. destruct (keep row); reflexivity. Qed.

Lemma aggregate_from_cons (t t' : Totals) (row : ActivityRow)
    (rows : list ActivityRow) :
  aggregate_from t (row :: rows) = Ok t' ->
  exists t1, step t row = Ok t1 /\ aggregate_from t1 rows = Ok t'.
Proof.
  simpl. destruct (step t row) as [t1|e]; simpl; [eauto | discriminate].
Qed.

(** The loop adds to every accumulator the seconds of the rows it has to
    count there. *)
Lemma aggregate_from_totals (rows : list ActivityRow) :
  forall t t' : Totals,
  aggregate_from t rows = Ok t' ->
  total_time t' = total_time t + sum_Z (map row_seconds rows) /\
  total_productive t' = total_productive t + seconds_where is_productive rows /\
  total_distracting t' = total_distracting t + seconds_where is_distracting rows /\
  weight_sum total_seconds (hourly_data t') =
    weight_sum total_seconds (hourly_data t) + sum_Z (map row_seconds rows) /\
  weight_sum id (category_totals t') =
    weight_sum id (category_totals t) + sum_Z (map row_seconds rows) /\
  weight_sum productive_seconds (hourly_data t') =
    weight_sum productive_seconds (hourly_data t)
    + seconds_where is_productive rows /\
  weight_sum distracting_seconds (hourly_data t') =
    weight_sum distracting_seconds (hourly_data t)
    + seconds_where is_distracting rows.
Proof.
  induction rows as [|row rows IH]; intros t t' Hrun.
  - injection Hrun as <-. unfold seconds_where. simpl. repeat split; lia.
  - apply aggregate_from_cons in Hrun as (t1 & Hstep & Hrest).
    apply step_totals in Hstep. apply IH in Hrest.
    rewrite !seconds_where_cons. simpl. lia.
Qed.

(** ** Rows that the loop accepts *)

Lemma step_well_formed (t : Totals) (row : ActivityRow) :
  well_formed row -> exists t', step t row = Ok t'.
Proof.
  intros [d Hd]. unfold step, hour_label. rewrite Hd. simpl.
  destruct (1 <=? row_productivity row);
    [|destruct (row_productivity row <=? -1)]; eauto.
Qed.

Lemma aggregate_from_well_formed (rows : list ActivityRow) :
  Forall well_formed rows ->
  forall t, exists t', aggregate_from t rows = Ok t'.
Proof.
  induction 1 as [|row rows Hrow _ IH]; intros t; simpl.
  - eauto.
  - destruct (step_well_formed t row Hrow) as [t1 ->]. simpl. apply IH.
Qed.

(** C1: after the loop, the per-hour [total_seconds] summed over all hour
    buckets, the per-category totals summed over all categories, and
    [total_time] are one number: the sum of the durations of all rows. *)
Theorem totals_agree (rows : list ActivityRow) :
  Forall well_formed rows ->
  exists t : Totals,
    aggregate rows = Ok t /\
    weight_sum total_seconds (hourly_data t) = weight_sum id (category_totals t) /\
    weight_sum id (category_totals t) = total_time t /\
    total_time t = sum_Z (map row_seconds rows).
Proof.
  intros Hwf.
  destruct (aggregate_from_well_formed rows Hwf initial_totals) as [t Hrun].
  exists t. split; [exact Hrun|].
  apply aggregate_from_totals in Hrun. simpl in Hrun.
  unfold weight_sum in *. simpl in Hrun. lia.
Qed.

(** ** Rendering *)

Lemma percentage_value (part total : Z) :
  percentage part total = Ok (if total =? 0 then 0 else part * 100 / total).
Proof.
  unfold percentage, truthy_int, floordiv.
  destruct (total =? 0); reflexivity.
Qed.

Lemma render_report_with (now : datetime) (t : Totals) (pp pd : Z) :
  percentage (total_productive t) (total_time t) = Ok pp ->
  percentage (total_distracting t) (total_time t) = Ok pd ->
  render now t = Ok (report_with now t pp pd).
Proof. intros Hpp Hpd. unfold render. rewrite Hpp, Hpd. reflexivity. Qed.

Lemma report_with_first_char (now : datetime) (t : Totals) (pp pd : Z) :
  exists rest, report_with now t pp pd = String "#" rest.
Proof.
  unfold report_with, report_title. cbn [String.append]. eauto.
Qed.

Lemma report_is_not_no_data (now : datetime) (t : Totals) (pp pd : Z) :
  report_with now t pp pd <> no_data.
Proof.
  destruct (report_with_first_char now t pp pd) as [rest ->].
  unfold no_data. discriminate.
Qed.

(** ** Sums of seconds *)

Lemma seconds_split (rows : list ActivityRow) :
  sum_Z (map row_seconds rows) =
  seconds_where is_productive rows + seconds_where is_distracting rows
  + seconds_where is_neutral rows.
Proof.
  induction rows as [|row rows IH]; [reflexivity|].
  rewrite !seconds_where_cons. simpl. rewrite IH.
  unfold is_neutral, is_productive, is_distracting.
  destruct (1 <=? row_productivity row) eqn:Hp;
    destruct (row_productivity row <=? -1) eqn:Hd; simpl; lia.
Qed.

Lemma seconds_where_nonneg (keep : ActivityRow -> bool) (rows : list ActivityRow) :
  Forall (fun row => 0 <= row_seconds row) rows ->
  0 <= seconds_where keep rows.
Proof.
  induction 1 as [|row rows Hrow _ IH].
  - unfold seconds_where. simpl. lia.
  - rewrite seconds_where_cons. destruct (keep row); lia.
Qed.

(** ** Percentages *)

(** C2: for rows with non-negative durations, each percentage of the
    report is the quotient truncated toward zero of [100 * part] by
    [total_time]; it lies between 0 and 100 when [total_time > 0], and
    both percentages are 0 when [total_time = 0]. *)
Theorem percentages_truncated_and_bounded (now : datetime)
    (rows : list ActivityRow) :
  Forall well_formed rows ->
  Forall (fun row => 0 <= row_seconds row) rows ->
  exists (t : Totals) (pp pd : Z),
    aggregate rows = Ok t /\
    percentage (total_productive t) (total_time t) = Ok pp /\
    percentage (total_distracting t) (total_time t) = Ok pd /\
    render now t = Ok (report_with now t pp pd) /\
    (0 < total_time t ->
       pp = Z.quot (total_productive t * 100) (total_time t) /\
       pd = Z.quot (total_distracting t * 100) (total_time t) /\
       0 <= pp <= 100 /\ 0 <= pd <= 100) /\
    (total_time t = 0 -> pp = 0 /\ pd = 0).
Proof.
  intros Hwf Hpos.
  destruct (aggregate_from_well_formed rows Hwf initial_totals) as [t Hrun].
  exists t.
  assert (Hrun' := Hrun).
  apply aggregate_from_totals in Hrun' as (Htt & Htp & Htd & _). simpl in *.
  pose proof (seconds_split rows) as Hsplit.
  pose proof (seconds_where_nonneg is_productive rows Hpos) as Hp.
  pose proof (seconds_where_nonneg is_distracting rows Hpos) as Hd.
  pose proof (seconds_where_nonneg is_neutral rows Hpos) as Hn.
  eexists _, _. split; [exact Hrun|].
  split; [apply percentage_value|].
  split; [apply percentage_value|].
  split; [apply render_report_with; apply percentage_value|].
  split.
  - intros Htotal.
    assert ((total_time t =? 0) = false) as -> by lia.
    rewrite !Z.quot_div_nonneg by lia.
    repeat split; try reflexivity.
    + apply Z.div_pos; lia.
    + apply Z.div_le_upper_bound; lia.
    + apply Z.div_pos; lia.
    + apply Z.div_le_upper_bound; lia.
  - intros ->. split; reflexivity.
Qed.

(** ** Classification by productivity score *)

Lemma is_productive_iff (row : ActivityRow) :
  is_productive row = true <-> 1 <= row_productivity row.
Proof. unfold is_productive. lia. Qed.

Lemma is_distracting_iff (row : ActivityRow) :
  is_distracting row = true <-> row_productivity row <= -1.
Proof. unfold is_distracting. lia. Qed.

Lemma is_neutral_iff (row : ActivityRow) :
  is_neutral row = true <-> row_productivity row = 0.
Proof. unfold is_neutral, is_productive, is_distracting. lia. Qed.

(** C3: a row's seconds go to the productive total (of the day and of its
    hour) exactly when its score is at least 1, to the distracting total
    exactly when its score is at most -1, and to neither otherwise; on the
    rows [(T,3600,_,"A","Work",2)] and [(T,1800,_,"B","Social",-2)] the
    totals are 5400, 3600 (66 percent) and 1800 (33 percent). *)
Theorem seconds_classified_by_score (rows : list ActivityRow)
    (T : string) (people_a people_b : Z) :
  Forall well_formed rows ->
  is_Some (fromisoformat (replace_char "Z" "+00:00" T)) ->
  (exists t : Totals,
   aggregate rows = Ok t /\
   total_productive t = seconds_where is_productive rows /\
   total_distracting t = seconds_where is_distracting rows /\
   total_time t - total_productive t - total_distracting t =
     seconds_where is_neutral rows /\
   weight_sum productive_seconds (hourly_data t) = total_productive t /\
   weight_sum distracting_seconds (hourly_data t) = total_distracting t /\
   (forall row, is_productive row = true <-> 1 <= row_productivity row) /\
   (forall row, is_distracting row = true <-> row_productivity row <= -1) /\
   (forall row, is_neutral row = true <->
                ~ 1 <= row_productivity row /\ ~ row_productivity row <= -1)) /\
  (exists t2,
     aggregate [mk_row T 3600 people_a "A" "Work" 2;
                mk_row T 1800 people_b "B" "Social" (-2)] = Ok t2 /\
     total_time t2 = 5400 /\
     total_productive t2 = 3600 /\
     percentage (total_productive t2) (total_time t2) = Ok 66 /\
     total_distracting t2 = 1800 /\
     percentage (total_distracting t2) (total_time t2) = Ok 33).
Proof.
  intros Hwf HT. split.
  - destruct (aggregate_from_well_formed rows Hwf initial_totals) as [t Hrun].
    exists t. split; [exact Hrun|].
    apply aggregate_from_totals in Hrun
      as (Htt & Htp & Htd & _ & _ & Hhp & Hhd).
    simpl in *. pose proof (seconds_split rows) as Hsplit.
    unfold weight_sum in *. simpl in *.
    repeat split; try lia; try (apply is_productive_iff; assumption);
      try (apply is_distracting_iff; assumption);
      try (apply is_neutral_iff in H; lia).
    intros [? ?]. apply is_neutral_iff. lia.
  - set (two := [mk_row T 3600 people_a "A" "Work" 2;
                 mk_row T 1800 people_b "B" "Social" (-2)]).
    assert (Htwo : Forall well_formed two)
      by (repeat constructor; exact HT).
    destruct (aggregate_from_well_formed two Htwo initial_totals) as [t2 Ht2].
    exists t2. split; [exact Ht2|].
    apply aggregate_from_totals in Ht2 as (Htt & Htp & Htd & _).
    unfold seconds_where in *. simpl in *.
    rewrite Htt, Htp, Htd. repeat split; reflexivity.
Qed.

(** ** The report generator as a whole *)

(** C4: on an empty row list the generator returns, as a normal value, the
    fixed sentence and nothing else. *)
Theorem empty_rows_give_no_data (now : datetime) (data : gmap string member) :
  data !! "rows" = Some (MRows []) ->
  generate_report now data =
  Ok "Aucune donnée RescueTime disponible pour aujourd'hui.".
Proof. intros Hrows. unfold generate_report. rewrite Hrows. reflexivity. Qed.

(** C10: a payload without a ["rows"] key is handled as one whose rows are
    an empty array: the generator returns the fixed sentence. *)
Theorem missing_rows_key_gives_no_data (now : datetime)
    (data : gmap string member) :
  data !! "rows" = None ->
  generate_report now data = Ok no_data /\
  generate_report now data = generate_report now (<["rows" := MRows []]> data).
Proof.
  intros Hrows. unfold generate_report.
  rewrite Hrows, lookup_insert_eq. split; reflexivity.
Qed.

(** C9: on a non-empty list of rows whose timestamps the parser accepts,
    the generator returns a report, never an exception; the report is not
    the fixed sentence of the empty case. *)
Theorem well_formed_rows_give_a_report (now : datetime)
    (data : gmap string member) (rows : list ActivityRow) :
  data !! "rows" = Some (MRows rows) ->
  rows <> [] ->
  Forall well_formed rows ->
  exists (t : Totals) (pp pd : Z),
    aggregate rows = Ok t /\
    generate_report now data = Ok (report_with now t pp pd) /\
    report_with now t pp pd <> no_data.
Proof.
  intros Hdata Hne Hwf.
  destruct (aggregate_from_well_formed rows Hwf initial_totals) as [t Ht].
  exists t. eexists _, _. split; [exact Ht|]. split.
  - unfold generate_report. rewrite Hdata. simpl.
    destruct rows as [|row rows']; [contradiction|].
    unfold aggregate. rewrite Ht. simpl.
    apply render_report_with; apply percentage_value.
  - apply report_is_not_no_data.
Qed.

(** ** [format_duration] *)

(** C5: the three documented values of [format_duration]. *)
Theorem format_duration_examples :
  format_duration 3661 = "1h01" /\
  format_duration 90 = "1min" /\
  format_duration 0 = "0min".
Proof. repeat split; vm_compute; reflexivity. Qed.

(** ** [sorted] *)

Section Sorting.

Context {A : Type} (before : A -> A -> bool).

Lemma insert_sorted_perm (x : A) (l : list A) :
  Permutation (insert_sorted before x l) (x :: l).
Proof.
  induction l as [|y l IH]; simpl.
  - reflexivity.
  - destruct (before x y).
    + reflexivity.
    + rewrite IH. apply perm_swap.
Qed.

Lemma py_sorted_perm (l : list A) : Permutation (py_sorted before l) l.
Proof.
  induction l as [|x l IH]; simpl.
  - reflexivity.
  - rewrite insert_sorted_perm. apply perm_skip, IH.
Qed.

Hypothesis before_total : forall x y, before x y = false -> before y x = true.

Lemma insert_sorted_hd (x y : A) (l : list A) :
  before y x = true ->
  HdRel (fun a b => before a b = true) y l ->
  HdRel (fun a b => before a b = true) y (insert_sorted before x l).
Proof.
  intros Hyx Hhd. destruct l as [|z l]; simpl.
  - constructor. exact Hyx.
  - destruct (before x z); constructor.
    + exact Hyx.
    + inversion Hhd; assumption.
Qed.

Lemma insert_sorted_sorted (x : A) (l : list A) :
  Sorted (fun a b => before a b = true) l ->
  Sorted (fun a b => before a b = true) (insert_sorted before x l).
Proof.
  induction 1 as [|y l Hl IH Hhd]; simpl.
  - repeat constructor.
  - destruct (before x y) eqn:Hxy.
    + constructor; [constructor; assumption | constructor; exact Hxy].
    + constructor; [exact IH |].
      apply insert_sorted_hd; [apply before_total; exact Hxy | exact Hhd].
Qed.

Lemma py_sorted_sorted (l : list A) :
  Sorted (fun a b => before a b = true) (py_sorted before l).
Proof.
  induction l as [|x l IH]; simpl.
  - constructor.
  - apply insert_sorted_sorted, IH.
Qed.

End Sorting.

Lemma descending_sorted {A : Type} (key : A -> Z) (l : list A) :
  StronglySorted (not_smaller key) (py_sorted (descending key) l).
Proof.
  apply Sorted_StronglySorted.
  - intros x y z. unfold not_smaller. lia.
  - eapply Sorted_ind with
      (P := fun l => Sorted (not_smaller key) l);
      [constructor | | apply (py_sorted_sorted (descending key))].
    + intros a l0 _ IH Hhd. constructor; [exact IH|].
      destruct Hhd as [|b l1 Hab]; constructor.
      unfold descending in Hab. unfold not_smaller. lia.
    + unfold descending. intros x y. lia.
Qed.


(** ** The hour buckets *)

Lemma bucket_at_update (hd : dict HourBucket) (h0 h : string)
    (f : HourBucket -> HourBucket) :
  default new_bucket (dict_get (dict_update new_bucket hd h0 f) h) =
  if String.eqb h0 h then f (default new_bucket (dict_get hd h0))
  else default new_bucket (dict_get hd h).
Proof. rewrite dict_get_update. destruct (String.eqb h0 h); reflexivity. Qed.

(** An iteration appends the row's activity to the bucket of the row's
    hour and leaves the activities of the other buckets alone. *)
Lemma step_activities (t t' : Totals) (row : ActivityRow) (h : string) :
  step t row = Ok t' ->
  activities (bucket_at t' h) =
  (activities (bucket_at t h)
   ++ (if in_hour h row then [activity_of row] else []))%list.
Proof.
  unfold step, in_hour, bucket_at.
  destruct (hour_label (row_timestamp row)) as [h0|e]; simpl; [|discriminate].
  destruct (1 <=? row_productivity row);
    [|destruct (row_productivity row <=? -1)];
    intros [= <-]; simpl; rewrite !bucket_at_update, ?String.eqb_refl;
    destruct (String.eqb h0 h) eqn:E;
    try (apply String.eqb_eq in E; subst h0);
    simpl; rewrite ?List.app_nil_r; reflexivity.
Qed.

Lemma aggregate_from_activities (rows : list ActivityRow) (h : string) :
  forall t t' : Totals,
  aggregate_from t rows = Ok t' ->
  activities (bucket_at t' h) =
  (activities (bucket_at t h)
   ++ map activity_of (List.filter (in_hour h) rows))%list.
Proof.
  induction rows as [|row rows IH]; intros t t' Hrun.
  - injection Hrun as <-. simpl. rewrite List.app_nil_r. reflexivity.
  - apply aggregate_from_cons in Hrun as (t1 & Hstep & Hrest).
    rewrite (IH _ _ Hrest), (step_activities _ _ _ h Hstep). simpl.
    destruct (in_hour h row); simpl; rewrite <- List.app_assoc; reflexivity.
Qed.

(** A bucket exists for an hour exactly when some row falls in it. *)
Lemma step_keys (t t' : Totals) (row : ActivityRow) (h : string) :
  step t row = Ok t' ->
  (In h (keys (hourly_data t')) <->
   In h (keys (hourly_data t)) \/ in_hour h row = true).
Proof.
  unfold step, in_hour.
  destruct (hour_label (row_timestamp row)) as [h0|e]; simpl; [|discriminate].
  destruct (1 <=? row_productivity row);
    [|destruct (row_productivity row <=? -1)];
    intros [= <-]; simpl; rewrite !dict_get_keys, !dict_get_update;
    destruct (String.eqb h0 h) eqn:E; split; eauto;
    intros [H|H]; try exact H; discriminate.
Qed.

Lemma aggregate_from_keys (rows : list ActivityRow) (h : string) :
  forall t t' : Totals,
  aggregate_from t rows = Ok t' ->
  (In h (keys (hourly_data t')) <->
   In h (keys (hourly_data t)) \/ exists row, In row rows /\ in_hour h row = true).
Proof.
  induction rows as [|row rows IH]; intros t t' Hrun.
  - injection Hrun as <-. simpl. split; [tauto | intros [H|(row & [] & _)]; exact H].
  - apply aggregate_from_cons in Hrun as (t1 & Hstep & Hrest).
    rewrite (IH _ _ Hrest), (step_keys _ _ _ h Hstep). simpl. split.
    + intros [[H|H]|(r & Hr & Hh)]; eauto 6.
    + intros [H|(r & [<-|Hr] & Hh)]; eauto 6.
Qed.




(** ** The category totals *)

Lemma dict_set_nodup {V : Type} (d : dict V) (k : string) (v : V) :
  NoDup (keys d) -> NoDup (keys (dict_set d k v)).
Proof.
  intros Hnd. rewrite keys_set. destruct (dict_get d k) as [v0|] eqn:Hget.
  - exact Hnd.
  - apply NoDup_app. split; [exact Hnd|]. split.
    + intros x Hx Hk. apply list_elem_of_In in Hx, Hk.
      destruct Hk as [<-|[]]. apply dict_get_keys in Hx as [v0 Hv0].
      congruence.
    + repeat constructor. intros H. apply list_elem_of_In in H. destruct H.
Qed.

Lemma dict_get_in {V : Type} (d : dict V) (k : string) (v : V) :
  NoDup (keys d) -> In (k, v) d -> dict_get d k = Some v.
Proof.
  unfold keys. induction d as [|[k0 v0] d IH]; simpl; intros Hnd Hin.
  - destruct Hin.
  - apply NoDup_cons in Hnd as [Hk0 Hnd].
    destruct Hin as [[= -> ->]|Hin].
    + rewrite String.eqb_refl. reflexivity.
    + destruct (String.eqb k0 k) eqn:E; [|apply IH; assumption].
      apply String.eqb_eq in E; subst k0. exfalso. apply Hk0.
      apply list_elem_of_In. apply (List.in_map fst _ _ Hin).
Qed.

Lemma step_category (t t' : Totals) (row : ActivityRow) :
  step t row = Ok t' ->
  (NoDup (keys (category_totals t)) -> NoDup (keys (category_totals t'))) /\
  (forall c, In c (keys (category_totals t')) <->
             In c (keys (category_totals t)) \/ has_category c row = true) /\
  forall c,
    default 0 (dict_get (category_totals t') c) =
    default 0 (dict_get (category_totals t) c)
    + (if has_category c row then row_seconds row else 0).
Proof.
  unfold step, has_category.
  destruct (hour_label (row_timestamp row)) as [h0|e]; simpl; [|discriminate].
  assert (Hall :
    let ct := dict_update 0 (category_totals t) (row_category row)
                (fun n => n + row_seconds row) in
    (NoDup (keys (category_totals t)) -> NoDup (keys ct)) /\
    (forall c, In c (keys ct) <->
               In c (keys (category_totals t))
               \/ String.eqb (row_category row) c = true) /\
    forall c, default 0 (dict_get ct c) =
              default 0 (dict_get (category_totals t) c)
              + (if String.eqb (row_category row) c then row_seconds row else 0)).
  { simpl. split; [apply dict_set_nodup|]. split; intros c.
    - rewrite !dict_get_keys, dict_get_update.
      destruct (String.eqb (row_category row) c); split; eauto.
      intros [H|H]; [exact H | discriminate].
    - rewrite dict_get_update.
      destruct (String.eqb (row_category row) c) eqn:E; simpl; [|lia].
      apply String.eqb_eq in E; subst c. reflexivity. }
  destruct (1 <=? row_productivity row);
    [|destruct (row_productivity row <=? -1)];
    intros [= <-]; exact Hall.
Qed.

Lemma aggregate_from_category (rows : list ActivityRow) :
  forall t t' : Totals,
  aggregate_from t rows = Ok t' ->
  (NoDup (keys (category_totals t)) -> NoDup (keys (category_totals t'))) /\
  (forall c, In c (keys (category_totals t')) <->
             In c (keys (category_totals t))
             \/ exists row, In row rows /\ has_category c row = true) /\
  forall c,
    default 0 (dict_get (category_totals t') c) =
    default 0 (dict_get (category_totals t) c)
    + seconds_where (has_category c) rows.
Proof.
  induction rows as [|row rows IH]; intros t t' Hrun.
  - injection Hrun as <-. unfold seconds_where. simpl.
    split; [tauto|]. split; intros c; [|lia].
    split; [tauto | intros [H|(row & [] & _)]; exact H].
  - apply aggregate_from_cons in Hrun as (t1 & Hstep & Hrest).
    apply step_category in Hstep as (Hnd1 & Hk1 & Hv1).
    apply IH in Hrest as (Hnd2 & Hk2 & Hv2).
    split; [tauto|]. split; intros c.
    + rewrite Hk2, Hk1. simpl. split.
      * intros [[H|H]|(r & Hr & Hc)]; eauto 6.
      * intros [H|(r & [<-|Hr] & Hc)]; eauto 6.
    + rewrite Hv2, Hv1, seconds_where_cons. lia.
Qed.

(** Every entry of [category_totals] is a category of some row, listed
    once, with the seconds of all rows of that category. *)
Lemma category_totals_value (rows : list ActivityRow) (t : Totals) :
  aggregate rows = Ok t ->
  NoDup (keys (category_totals t)) /\
  forall c n, In (c, n) (category_totals t) ->
    n = seconds_where (has_category c) rows /\
    exists row, In row rows /\ row_category row = c.
Proof.
  intros Hrun. apply aggregate_from_category in Hrun as (Hnd & Hk & Hv).
  simpl in *. assert (Hnd' := Hnd (NoDup_nil_2 (A:=string))). split; [exact Hnd'|].
  intros c n Hin. split.
  - specialize (Hv c). rewrite (dict_get_in _ _ _ Hnd' Hin) in Hv.
    simpl in Hv. lia.
  - assert (Hc : In c (keys (category_totals t)))
      by (apply (List.in_map fst _ _ Hin)).
    apply Hk in Hc as [[]|(row & Hrow & Hcat)].
    exists row. split; [exact Hrow|]. apply String.eqb_eq. exact Hcat.
Qed.

(** ** [main] *)

(** C8: when either API key is missing from the environment, the run ends
    with a [ValueError] and its list of events is empty: nothing was
    printed, fetched or sent. *)
Theorem missing_key_fails_before_network (environ : gmap string string)
    (w : World) :
  RESCUETIME_API_KEY environ = None \/ RESEND_API_KEY environ = None ->
  (exists msg, main environ w = ([], Raise (ValueError msg))) /\
  List.filter is_network (fst (main environ w)) = [].
Proof.
  intros Hmissing.
  assert (Hmain : exists msg, main environ w = ([], Raise (ValueError msg))).
  { unfold main.
    destruct (truthy_str (RESCUETIME_API_KEY environ)) eqn:H1; simpl; [|eauto].
    destruct (truthy_str (RESEND_API_KEY environ)) eqn:H2; simpl; [|eauto].
    destruct Hmissing as [H|H]; rewrite H in *; discriminate. }
  split; [exact Hmain|]. destruct Hmain as [msg ->]. reflexivity.
Qed.

End Properties.

(** * Further properties of the code *)

Section MoreProperties.

Context {parser : IsoParser}.

(** ** [format_duration] *)

Lemma hours_of_minutes (s : Z) : s / 3600 = s / 60 / 60.
Proof. rewrite Z.div_div by lia. reflexivity. Qed.

Lemma minutes_of_minutes (s : Z) : s mod 3600 / 60 = (s / 60) mod 60.
Proof.
  replace 3600 with (60 * 60) by reflexivity.
  rewrite Z.rem_mul_r by lia.
  rewrite Z.mul_comm, Z.div_add by lia.
  rewrite (Z.div_small (s mod 60)) by (apply Z.mod_pos_bound; lia).
  reflexivity.
Qed.

(** X1: [format_duration] drops the seconds: two durations with the same
    number of whole minutes print the same text. *)
Theorem format_duration_whole_minutes (s s' : Z) :
  s / 60 = s' / 60 -> format_duration s = format_duration s'.
Proof.
  intros Hmin. unfold format_duration.
  rewrite !hours_of_minutes, !minutes_of_minutes, Hmin. reflexivity.
Qed.

Lemma zero_pad_two_digits (m : Z) :
  0 <= m < 60 -> String.length (zero_pad 2 m) = 2%nat.
Proof.
  intros Hm. assert (Hn : exists n : nat, m = Z.of_nat n /\ (n < 60)%nat)
    by (exists (Z.to_nat m); lia).
  destruct Hn as (n & -> & Hn).
  do 60 (destruct n as [|n]; [vm_compute; reflexivity|]). lia.
Qed.

(** [:02d] on a minute: one leading zero below ten, the decimal digits
    otherwise. *)
Lemma zero_pad_minutes (m : Z) :
  0 <= m < 60 ->
  zero_pad 2 m = if m <? 10 then "0" +:+ str_int m else str_int m.
Proof.
  intros Hm. assert (Hn : exists n : nat, m = Z.of_nat n /\ (n < 60)%nat)
    by (exists (Z.to_nat m); lia).
  destruct Hn as (n & -> & Hn).
  do 60 (destruct n as [|n]; [vm_compute; reflexivity|]). lia.
Qed.

(** The decimal digits of the numbers a minute field can hold. *)
Lemma str_int_minutes (m : Z) :
  0 <= m < 60 ->
  str_int m =
  (if m <? 10 then "" else String (ascii_of_nat (48 + Z.to_nat (m / 10))) "")
  +:+ String (ascii_of_nat (48 + Z.to_nat (m mod 10))) "".
Proof.
  intros Hm. assert (Hn : exists n : nat, m = Z.of_nat n /\ (n < 60)%nat)
    by (exists (Z.to_nat m); lia).
  destruct Hn as (n & -> & Hn).
  do 60 (destruct n as [|n]; [vm_compute; reflexivity|]). lia.
Qed.

(** X2: below one hour the text is the number of whole minutes of the
    duration modulo one hour, from 0 to 59, followed by [min]; from one
    hour on it is the number of whole hours, [h], and the remaining whole
    minutes written with exactly two decimal digits, a leading zero
    below ten. *)
Theorem format_duration_shape (s : Z) :
  (s < 3600 ->
   exists m, 0 <= m <= 59 /\ format_duration s = str_int m +:+ "min" /\
             m = s mod 3600 / 60 /\ (0 <= s -> m = s / 60)) /\
  (3600 <= s ->
   exists mm, String.length mm = 2%nat /\ 1 <= s / 3600 /\
              format_duration s = str_int (s / 3600) +:+ "h" +:+ mm /\
              exists m, 0 <= m <= 59 /\ m = s mod 3600 / 60 /\
                        s = 3600 * (s / 3600) + 60 * m + s mod 60 /\
                        mm = (if m <? 10 then "0" +:+ str_int m else str_int m) /\
                        mm = String (ascii_of_nat (48 + Z.to_nat (m / 10)))
                               (String (ascii_of_nat (48 + Z.to_nat (m mod 10))) "")).
Proof.
  unfold format_duration.
  assert (Hmin : 0 <= s mod 3600 / 60 < 60).
  { pose proof (Z.mod_pos_bound s 3600 ltac:(lia)). split.
    - apply Z.div_pos; lia.
    - apply Z.div_lt_upper_bound; lia. }
  split; intros Hs.
  - assert (Hh : s / 3600 <= 0).
    { assert (s / 3600 < 1) by (apply Z.div_lt_upper_bound; lia). lia. }
    assert ((0 <? s / 3600) = false) as -> by lia.
    exists (s mod 3600 / 60). split; [lia|]. split; [reflexivity|].
    split; [reflexivity|]. intros Hpos. rewrite Z.mod_small by lia. reflexivity.
  - assert (Hh : 1 <= s / 3600) by (apply Z.div_le_lower_bound; lia).
    assert ((0 <? s / 3600) = true) as -> by lia.
    exists (zero_pad 2 (s mod 3600 / 60)).
    split; [apply zero_pad_two_digits; exact Hmin|]. split; [exact Hh|].
    split; [reflexivity|].
    exists (s mod 3600 / 60). split; [lia|]. split; [reflexivity|].
    split; [|split].
    + rewrite minutes_of_minutes.
      pose proof (Z.div_mod s 3600 ltac:(lia)) as E1.
      pose proof (Z.div_mod s 60 ltac:(lia)) as E2.
      pose proof (Z.div_mod (s / 60) 60 ltac:(lia)) as E3.
      rewrite hours_of_minutes. lia.
    + apply zero_pad_minutes. exact Hmin.
    + rewrite (zero_pad_minutes _ Hmin), (str_int_minutes _ Hmin).
      destruct (s mod 3600 / 60 <? 10) eqn:Hten; [|reflexivity].
      assert (Hdiv : s mod 3600 / 60 / 10 = 0) by (apply Z.div_small; lia).
      rewrite Hdiv. reflexivity.
Qed.

(** X3: a negative duration is printed without sign and without hours, as
    the minutes of its residue modulo one hour. *)
Theorem format_duration_negative (s : Z) :
  s < 0 ->
  format_duration s = format_duration (s mod 3600) /\
  format_duration s = str_int (s mod 3600 / 60) +:+ "min".
Proof.
  intros Hs. unfold format_duration.
  pose proof (Z.mod_pos_bound s 3600 ltac:(lia)) as Hr.
  assert (Hneg : s / 3600 < 0) by (apply Z.div_lt_upper_bound; lia).
  assert ((0 <? s / 3600) = false) as -> by lia.
  rewrite Z.mod_mod by lia.
  rewrite (Z.div_small (s mod 3600) 3600) by lia.
  split; reflexivity.
Qed.

(** ** [get_productivity_label] against the counting of seconds *)


(** ** A timestamp the parser rejects *)

Lemma step_rejected (t : Totals) (row : ActivityRow) :
  ~ well_formed row -> exists msg, step t row = Raise (ValueError msg).
Proof.
  intros Hbad. unfold step, hour_label.
  destruct (fromisoformat (replace_char "Z" "+00:00" (row_timestamp row)))
    as [d|] eqn:Hd.
  - exfalso. apply Hbad. exists d. exact Hd.
  - simpl. eauto.
Qed.

Lemma aggregate_from_rejected (rows : list ActivityRow) :
  Exists (fun row => ~ well_formed row) rows ->
  forall t, exists msg, aggregate_from t rows = Raise (ValueError msg).
Proof.
  induction rows as [|row rows IH]; intros Hbad t.
  - inversion Hbad.
  - simpl. destruct (step t row) as [t1|e] eqn:Hstep.
    + simpl. apply IH. inversion Hbad as [? ? Hrow|? ? Hrest]; subst.
      * destruct (step_rejected t row Hrow) as [msg Hmsg]. congruence.
      * exact Hrest.
    + simpl. unfold step in Hstep.
      destruct (hour_label (row_timestamp row)) as [h|e'] eqn:Hh; simpl in Hstep.
      * destruct (1 <=? row_productivity row);
          [|destruct (row_productivity row <=? -1)]; discriminate.
      * injection Hstep as <-. unfold hour_label in Hh.
        destruct (fromisoformat _); [discriminate|].
        injection Hh as <-. eauto.
Qed.

(** X5: one row whose timestamp the parser rejects is enough for the
    generator to raise [ValueError]; no partial report is returned. *)
Theorem rejected_timestamp_aborts_report (now : datetime)
    (data : gmap string member) (rows : list ActivityRow) :
  data !! "rows" = Some (MRows rows) ->
  Exists (fun row => ~ well_formed row) rows ->
  exists msg, generate_report now data = Raise (ValueError msg).
Proof.
  intros Hdata Hbad. unfold generate_report. rewrite Hdata. simpl.
  destruct rows as [|row rows']; [inversion Hbad|].
  unfold aggregate.
  destruct (aggregate_from_rejected _ Hbad initial_totals) as [msg ->].
  simpl. eauto.
Qed.

(** ** Equal keys under [sorted] *)

Lemma insert_sorted_stable {A : Type} (key : A -> Z) (n : Z) (x : A) (l : list A) :
  List.filter (fun y => key y =? n) (insert_sorted (descending key) x l) =
  List.filter (fun y => key y =? n) (x :: l).
Proof.
  induction l as [|y l IH]; [reflexivity|].
  simpl. unfold descending at 1. destruct (key y <=? key x) eqn:Hyx.
  - reflexivity.
  - simpl. simpl in IH. rewrite IH.
    destruct (key y =? n) eqn:Hy; destruct (key x =? n) eqn:Hx;
      try reflexivity; lia.
Qed.

Lemma py_sorted_stable {A : Type} (key : A -> Z) (n : Z) (l : list A) :
  List.filter (fun y => key y =? n) (py_sorted (descending key) l) =
  List.filter (fun y => key y =? n) l.
Proof.
  induction l as [|x l IH]; [reflexivity|].
  simpl. rewrite insert_sorted_stable. simpl. rewrite IH. reflexivity.
Qed.

(** ** The order of the keys of [category_totals] *)

Lemma existsb_eqb_In (x : string) (l : list string) :
  existsb (String.eqb x) l = true <-> In x l.
Proof.
  rewrite List.existsb_exists. split.
  - intros (y & Hy & Heq). apply String.eqb_eq in Heq. subst. exact Hy.
  - intros Hx. exists x. split; [exact Hx | apply String.eqb_refl].
Qed.

Lemma first_seen_same_members (l seen seen' : list string) :
  (forall x, In x seen <-> In x seen') ->
  first_seen seen l = first_seen seen' l.
Proof.
  revert seen seen'. induction l as [|x l IH]; intros seen seen' Hsame.
  - reflexivity.
  - simpl.
    assert (Hb : existsb (String.eqb x) seen = existsb (String.eqb x) seen').
    { apply eq_true_iff_eq. rewrite !existsb_eqb_In. apply Hsame. }
    rewrite Hb. destruct (existsb (String.eqb x) seen').
    + apply IH, Hsame.
    + f_equal. apply IH. intros y. simpl. rewrite Hsame. reflexivity.
Qed.

Lemma step_category_keys (t t' : Totals) (row : ActivityRow) :
  step t row = Ok t' ->
  keys (category_totals t') =
  (keys (category_totals t)
   ++ first_seen (keys (category_totals t)) [row_category row])%list.
Proof.
  unfold step.
  destruct (hour_label (row_timestamp row)) as [h0|e]; simpl; [|discriminate].
  assert (Hkeys :
    keys (dict_update 0 (category_totals t) (row_category row)
            (fun n => n + row_seconds row)) =
    (keys (category_totals t)
     ++ (if existsb (String.eqb (row_category row)) (keys (category_totals t))
         then [] else [row_category row]))%list).
  { unfold dict_update. rewrite keys_set.
    destruct (dict_get (category_totals t) (row_category row)) as [n|] eqn:Hget.
    - assert (Hin : In (row_category row) (keys (category_totals t)))
        by (apply dict_get_keys; eauto).
      apply existsb_eqb_In in Hin. rewrite Hin, List.app_nil_r. reflexivity.
    - destruct (existsb (String.eqb (row_category row))
                  (keys (category_totals t))) eqn:Hex; [|reflexivity].
      apply existsb_eqb_In, dict_get_keys in Hex. destruct Hex as [n Hn].
      congruence. }
  destruct (1 <=? row_productivity row);
    [|destruct (row_productivity row <=? -1)];
    intros [= <-]; simpl; rewrite Hkeys;
    destruct (existsb _ _); reflexivity.
Qed.

Lemma aggregate_from_category_keys (rows : list ActivityRow) :
  forall t t' : Totals,
  aggregate_from t rows = Ok t' ->
  keys (category_totals t') =
  (keys (category_totals t)
   ++ first_seen (keys (category_totals t)) (map row_category rows))%list.
Proof.
  induction rows as [|row rows IH]; intros t t' Hrun.
  - injection Hrun as <-. simpl. rewrite List.app_nil_r. reflexivity.
  - apply aggregate_from_cons in Hrun as (t1 & Hstep & Hrest).
    rewrite (IH _ _ Hrest), (step_category_keys _ _ _ Hstep). simpl.
    destruct (existsb (String.eqb (row_category row))
                (keys (category_totals t))) eqn:Hex.
    + rewrite List.app_nil_r. reflexivity.
    + rewrite <- List.app_assoc. simpl. do 2 f_equal.
      apply first_seen_same_members. intros x.
      rewrite List.in_app_iff. simpl. tauto.
Qed.

(** X6: [category_totals] lists the categories in the order in which they
    first occur in the rows, and the table keeps that order among
    categories whose totals are equal. *)
Theorem equal_totals_keep_first_seen_order (rows : list ActivityRow) :
  Forall well_formed rows ->
  exists t : Totals,
    aggregate rows = Ok t /\
    keys (category_totals t) = first_seen [] (map row_category rows) /\
    forall n : Z,
      List.filter (fun item => snd item =? n) (sorted_categories t) =
      List.filter (fun item => snd item =? n) (category_totals t).
Proof.
  intros Hwf.
  destruct (aggregate_from_well_formed rows Hwf initial_totals) as [t Hrun].
  exists t. split; [exact Hrun|]. split.
  - apply (aggregate_from_category_keys rows _ _ Hrun).
  - intros n. apply py_sorted_stable.
Qed.

(** X7: the activities of an hour are kept in the order of their rows,
    and the list the section is cut from keeps that order among
    activities of equal duration: of two equally long activities the one
    from the earlier row is listed first. *)
Theorem equal_durations_keep_row_order (rows : list ActivityRow) :
  Forall well_formed rows ->
  exists t : Totals,
    aggregate rows = Ok t /\
    forall h : string,
      let b := bucket_at t h in
      activities b = map activity_of (List.filter (in_hour h) rows) /\
      exists ranked : list Activity,
        top_activities b = firstn 3 ranked /\
        StronglySorted (not_smaller seconds) ranked /\
        forall n : Z,
          List.filter (fun act => seconds act =? n) ranked =
          List.filter (fun act => seconds act =? n) (activities b).
Proof.
  intros Hwf.
  destruct (aggregate_from_well_formed rows Hwf initial_totals) as [t Hrun].
  exists t. split; [exact Hrun|]. intros h b. split.
  - unfold b. rewrite (aggregate_from_activities rows h _ _ Hrun). reflexivity.
  - exists (py_sorted (descending seconds) (activities b)).
    split; [reflexivity|]. split; [apply descending_sorted|].
    intros n. apply py_sorted_stable.
Qed.

(** ** The fields of an hour bucket *)

Lemma sum_Z_app (l1 l2 : list Z) : sum_Z (l1 ++ l2) = sum_Z l1 + sum_Z l2.
Proof. induction l1 as [|x l1 IH]; simpl; [reflexivity | rewrite IH; lia]. Qed.

Lemma step_bucket_fields (t t' : Totals) (row : ActivityRow) (h : string) :
  step t row = Ok t' ->
  total_seconds (bucket_at t' h) =
    total_seconds (bucket_at t h)
    + (if in_hour h row then row_seconds row else 0) /\
  productive_seconds (bucket_at t' h) =
    productive_seconds (bucket_at t h)
    + (if in_hour h row && is_productive row then row_seconds row else 0) /\
  distracting_seconds (bucket_at t' h) =
    distracting_seconds (bucket_at t h)
    + (if in_hour h row && is_distracting row then row_seconds row else 0).
Proof.
  unfold step, in_hour, bucket_at, is_productive, is_distracting.
  destruct (hour_label (row_timestamp row)) as [h0|e]; simpl; [|discriminate].
  destruct (1 <=? row_productivity row) eqn:Hp;
    [|destruct (row_productivity row <=? -1) eqn:Hd];
    intros [= <-]; simpl; rewrite !bucket_at_update, ?String.eqb_refl;
    destruct (String.eqb h0 h) eqn:E;
    try (apply String.eqb_eq in E; subst h0);
    simpl; try rewrite Hp; try rewrite Hd;
    try (assert ((row_productivity row <=? -1) = false) as -> by lia);
    simpl; repeat split; lia.
Qed.

Lemma aggregate_from_bucket_fields (rows : list ActivityRow) (h : string) :
  forall t t' : Totals,
  aggregate_from t rows = Ok t' ->
  total_seconds (bucket_at t' h) =
    total_seconds (bucket_at t h) + seconds_where (in_hour h) rows /\
  productive_seconds (bucket_at t' h) =
    productive_seconds (bucket_at t h)
    + seconds_where (fun row => in_hour h row && is_productive row) rows /\
  distracting_seconds (bucket_at t' h) =
    distracting_seconds (bucket_at t h)
    + seconds_where (fun row => in_hour h row && is_distracting row) rows.
Proof.
  induction rows as [|row rows IH]; intros t t' Hrun.
  - injection Hrun as <-. unfold seconds_where. simpl. lia.
  - apply aggregate_from_cons in Hrun as (t1 & Hstep & Hrest).
    apply (step_bucket_fields _ _ _ h) in Hstep. apply IH in Hrest.
    rewrite !seconds_where_cons. lia.
Qed.

Lemma activity_seconds_of_rows (keep : Activity -> bool) (h : string)
    (rows : list ActivityRow) :
  sum_Z (map seconds
           (List.filter keep (map activity_of (List.filter (in_hour h) rows)))) =
  seconds_where (fun row => in_hour h row && keep (activity_of row)) rows.
Proof.
  induction rows as [|row rows IH]; [reflexivity|].
  rewrite seconds_where_cons. simpl.
  destruct (in_hour h row); simpl; [|exact IH].
  destruct (keep (activity_of row)); simpl; rewrite IH; reflexivity.
Qed.

(** X8: in every hour bucket [total_seconds] is the sum of the seconds of
    its activities, which are the seconds of the rows of that hour;
    [productive_seconds] and [distracting_seconds] are the sums over its
    activities with a score of at least 1 and of at most -1. *)
Theorem bucket_fields_match_activities (rows : list ActivityRow) :
  Forall well_formed rows ->
  exists t : Totals,
    aggregate rows = Ok t /\
    forall h : string,
      let b := bucket_at t h in
      total_seconds b = activity_seconds (fun _ => true) b /\
      total_seconds b = seconds_where (in_hour h) rows /\
      productive_seconds b =
        activity_seconds (fun act => 1 <=? productivity act) b /\
      distracting_seconds b =
        activity_seconds (fun act => productivity act <=? -1) b.
Proof.
  intros Hwf.
  destruct (aggregate_from_well_formed rows Hwf initial_totals) as [t Hrun].
  exists t. split; [exact Hrun|]. intros h b.
  assert (Hacts : activities b = map activity_of (List.filter (in_hour h) rows)).
  { unfold b. rewrite (aggregate_from_activities rows h _ _ Hrun). reflexivity. }
  destruct (aggregate_from_bucket_fields rows h _ _ Hrun) as (Ht & Hp & Hd).
  fold b in Ht, Hp, Hd. simpl in Ht, Hp, Hd.
  unfold activity_seconds. rewrite Hacts, !activity_seconds_of_rows.
  rewrite Ht, Hp, Hd. unfold seconds_where. rewrite !Z.add_0_l.
  repeat split; do 2 f_equal; apply List.filter_ext; intros row;
    destruct (in_hour h row); reflexivity.
Qed.

(** ** The order of the hour sections *)

Lemma ascii_compare_N (a b : ascii) :
  Ascii.compare a b = N.compare (N_of_ascii a) (N_of_ascii b).
Proof. reflexivity. Qed.

Lemma string_leb_trans (s1 : string) :
  forall s2 s3, String.leb s1 s2 = true -> String.leb s2 s3 = true ->
                String.leb s1 s3 = true.
Proof.
  unfold String.leb.
  induction s1 as [|c1 s1 IH]; intros [|c2 s2] [|c3 s3]; simpl;
    try reflexivity; try discriminate.
  rewrite !ascii_compare_N.
  destruct (N.compare_spec (N_of_ascii c1) (N_of_ascii c2)) as [H12|H12|H12];
    destruct (N.compare_spec (N_of_ascii c2) (N_of_ascii c3)) as [H23|H23|H23];
    destruct (N.compare_spec (N_of_ascii c1) (N_of_ascii c3)) as [H13|H13|H13];
    try reflexivity; try discriminate; try lia; intros H1 H2.
  apply (IH s2 s3 H1 H2).
Qed.

Lemma step_hour_keys_nodup (t t' : Totals) (row : ActivityRow) :
  step t row = Ok t' ->
  NoDup (keys (hourly_data t)) -> NoDup (keys (hourly_data t')).
Proof.
  unfold step.
  destruct (hour_label (row_timestamp row)) as [h0|e]; simpl; [|discriminate].
  destruct (1 <=? row_productivity row);
    [|destruct (row_productivity row <=? -1)];
    intros [= <-] Hnd; simpl; unfold dict_update;
    repeat apply dict_set_nodup; exact Hnd.
Qed.

Lemma aggregate_from_hour_keys_nodup (rows : list ActivityRow) :
  forall t t' : Totals,
  aggregate_from t rows = Ok t' ->
  NoDup (keys (hourly_data t)) -> NoDup (keys (hourly_data t')).
Proof.
  induction rows as [|row rows IH]; intros t t' Hrun Hnd.
  - injection Hrun as <-. exact Hnd.
  - apply aggregate_from_cons in Hrun as (t1 & Hstep & Hrest).
    apply (IH _ _ Hrest). apply (step_hour_keys_nodup _ _ _ Hstep Hnd).
Qed.

(** X9: the report has one section for each hour in which some row
    falls and for no other hour, and the sections are in ascending order
    of their hour label. *)
Theorem hour_sections_ascending (rows : list ActivityRow) :
  Forall well_formed rows ->
  exists t : Totals,
    aggregate rows = Ok t /\
    let hours := py_sorted str_ascending (keys (hourly_data t)) in
    render_hours t =
      String.concat "" (map (fun h => render_hour h (bucket_at t h)) hours) /\
    StronglySorted (fun a b => String.leb a b = true) hours /\
    NoDup hours /\
    forall h : string,
      In h hours <->
      exists row, In row rows /\ hour_label (row_timestamp row) = Ok h.
Proof.
  intros Hwf.
  destruct (aggregate_from_well_formed rows Hwf initial_totals) as [t Hrun].
  exists t. split; [exact Hrun|]. intros hours.
  pose proof (py_sorted_perm str_ascending (keys (hourly_data t))) as Hperm.
  fold hours in Hperm.
  split; [reflexivity|]. split; [|split].
  - apply Sorted_StronglySorted.
    + intros a b c. apply string_leb_trans.
    + apply py_sorted_sorted. intros x y Hxy. unfold str_ascending in *.
      destruct (String.leb_total x y) as [H|H]; congruence.
  - apply NoDup_ListNoDup.
    apply (Permutation_NoDup (l := keys (hourly_data t))).
    + symmetry. exact Hperm.
    + apply NoDup_ListNoDup.
      apply (aggregate_from_hour_keys_nodup rows _ _ Hrun). constructor.
  - intros h. split.
    + intros Hin. apply (Permutation_in _ Hperm) in Hin.
      apply (aggregate_from_keys rows h _ _ Hrun) in Hin
        as [[]|(row & Hrow & Hhour)].
      exists row. split; [exact Hrow|]. unfold in_hour in Hhour.
      destruct (hour_label (row_timestamp row)) as [h'|e]; [|discriminate].
      apply String.eqb_eq in Hhour. congruence.
    + intros (row & Hrow & Hhour).
      apply (Permutation_in _ (Permutation_sym Hperm)).
      apply (aggregate_from_keys rows h _ _ Hrun). right.
      exists row. split; [exact Hrow|]. unfold in_hour. rewrite Hhour.
      apply String.eqb_refl.
Qed.

(** ** The order of the rows *)

Lemma seconds_where_perm (keep : ActivityRow -> bool) (rows rows' : list ActivityRow) :
  Permutation rows rows' -> seconds_where keep rows = seconds_where keep rows'.
Proof.
  induction 1 as [|row l l' _ IH|x y l|l l' l'' _ IH1 _ IH2].
  - reflexivity.
  - rewrite !seconds_where_cons, IH. reflexivity.
  - rewrite !seconds_where_cons. lia.
  - congruence.
Qed.

Lemma sum_seconds_perm (rows rows' : list ActivityRow) :
  Permutation rows rows' ->
  sum_Z (map row_seconds rows) = sum_Z (map row_seconds rows').
Proof.
  intros Hperm. rewrite !seconds_split.
  rewrite (seconds_where_perm is_productive _ _ Hperm),
          (seconds_where_perm is_distracting _ _ Hperm),
          (seconds_where_perm is_neutral _ _ Hperm).
  reflexivity.
Qed.

(** X10: the totals do not depend on the order of the rows: the same rows
    in another order give the same total, productive and distracting
    time, the same total for every category and for every hour. *)
Theorem totals_independent_of_row_order (rows rows' : list ActivityRow) :
  Forall well_formed rows ->
  Permutation rows rows' ->
  exists t t' : Totals,
    aggregate rows = Ok t /\ aggregate rows' = Ok t' /\
    total_time t = total_time t' /\
    total_productive t = total_productive t' /\
    total_distracting t = total_distracting t' /\
    (forall c, default 0 (dict_get (category_totals t) c) =
               default 0 (dict_get (category_totals t') c)) /\
    (forall c, In c (keys (category_totals t)) <->
               In c (keys (category_totals t'))) /\
    (forall h, total_seconds (bucket_at t h) = total_seconds (bucket_at t' h)).
Proof.
  intros Hwf Hperm.
  assert (Hwf' : Forall well_formed rows').
  { apply List.Forall_forall. intros row Hrow.
    apply (proj1 (List.Forall_forall _ _) Hwf).
    apply (Permutation_in _ (Permutation_sym Hperm)). exact Hrow. }
  destruct (aggregate_from_well_formed rows Hwf initial_totals) as [t Hrun].
  destruct (aggregate_from_well_formed rows' Hwf' initial_totals) as [t' Hrun'].
  exists t, t'. split; [exact Hrun|]. split; [exact Hrun'|].
  destruct (aggregate_from_totals rows _ _ Hrun) as (Htt & Htp & Htd & _).
  destruct (aggregate_from_totals rows' _ _ Hrun') as (Htt' & Htp' & Htd' & _).
  destruct (aggregate_from_category rows _ _ Hrun) as (_ & Hk & Hv).
  destruct (aggregate_from_category rows' _ _ Hrun') as (_ & Hk' & Hv').
  simpl in *.
  split; [rewrite Htt, Htt'; f_equal; apply sum_seconds_perm, Hperm|].
  split; [rewrite Htp, Htp'; f_equal; apply seconds_where_perm, Hperm|].
  split; [rewrite Htd, Htd'; f_equal; apply seconds_where_perm, Hperm|].
  split; [|split].
  - intros c. rewrite Hv, Hv'. f_equal. apply seconds_where_perm, Hperm.
  - intros c. rewrite Hk, Hk'. split.
    + intros [[]|(row & Hrow & Hc)]. right. exists row.
      split; [apply (Permutation_in _ Hperm); exact Hrow | exact Hc].
    + intros [[]|(row & Hrow & Hc)]. right. exists row.
      split; [apply (Permutation_in _ (Permutation_sym Hperm)); exact Hrow
             | exact Hc].
  - intros h.
    destruct (aggregate_from_bucket_fields rows h _ _ Hrun) as (Hh & _).
    destruct (aggregate_from_bucket_fields rows' h _ _ Hrun') as (Hh' & _).
    rewrite Hh, Hh'. f_equal. apply seconds_where_perm, Hperm.
Qed.

(** ** The two percentages together *)

(** X11: with non-negative durations the productive and the distracting
    percentage of a report add up to at most 100. *)
Theorem percentages_sum_at_most_100 (rows : list ActivityRow) :
  Forall well_formed rows ->
  Forall (fun row => 0 <= row_seconds row) rows ->
  exists (t : Totals) (pp pd : Z),
    aggregate rows = Ok t /\
    percentage (total_productive t) (total_time t) = Ok pp /\
    percentage (total_distracting t) (total_time t) = Ok pd /\
    0 <= pp + pd <= 100.
Proof.
  intros Hwf Hpos.
  destruct (aggregate_from_well_formed rows Hwf initial_totals) as [t Hrun].
  exists t. eexists _, _. split; [exact Hrun|].
  split; [apply percentage_value|]. split; [apply percentage_value|].
  apply aggregate_from_totals in Hrun as (Htt & Htp & Htd & _). simpl in *.
  pose proof (seconds_split rows) as Hsplit.
  pose proof (seconds_where_nonneg is_productive rows Hpos) as Hp.
  pose proof (seconds_where_nonneg is_distracting rows Hpos) as Hd.
  pose proof (seconds_where_nonneg is_neutral rows Hpos) as Hn.
  destruct (total_time t =? 0) eqn:Hzero; [lia|].
  assert (Htotal : 0 < total_time t) by lia.
  assert (Ha : 0 <= total_productive t * 100 / total_time t)
    by (apply Z.div_pos; lia).
  assert (Hb : 0 <= total_distracting t * 100 / total_time t)
    by (apply Z.div_pos; lia).
  split; [lia|].
  pose proof (Z.mul_div_le (total_productive t * 100) (total_time t) Htotal).
  pose proof (Z.mul_div_le (total_distracting t * 100) (total_time t) Htotal).
  assert (total_time t * (total_productive t * 100 / total_time t
                          + total_distracting t * 100 / total_time t)
          <= total_time t * 100) by lia.
  apply (Z.mul_le_mono_pos_l _ _ (total_time t)); assumption.
Qed.

(** ** The [Z] of a timestamp *)





(** ** The run *)

Lemma json_of_reply_silent {A : Type} (r : reply A) : fst (json_of_reply r) = [].
Proof.
  destruct r as [|status [v|]]; simpl; [reflexivity| |];
    destruct ((400 <=? status) && (status <? 600)); reflexivity.
Qed.

Lemma get_rescuetime_data_events (environ : gmap string string) (w : World) :
  exists params,
    get_rescuetime_data environ w =
    ([HttpGet "https://www.rescuetime.com/anapi/data" params],
     snd (json_of_reply (analytics_api w params))) /\
    params =
      [("key", RESCUETIME_API_KEY environ);
       ("perspective", Some "interval");
       ("resolution_time", Some "hour");
       ("restrict_begin", Some (strftime_Ymd (now_fetch w)));
       ("restrict_end", Some (strftime_Ymd (now_fetch w)));
       ("format", Some "json")].
Proof.
  eexists. split; [|reflexivity].
  unfold get_rescuetime_data, io_bind, emit.
  destruct (json_of_reply _) as [tr r] eqn:Hr.
  pose proof (json_of_reply_silent (analytics_api w
    [("key", RESCUETIME_API_KEY environ);
       ("perspective", Some "interval");
       ("resolution_time", Some "hour");
       ("restrict_begin", Some (strftime_Ymd (now_fetch w)));
       ("restrict_end", Some (strftime_Ymd (now_fetch w)));
       ("format", Some "json")])) as Hs.
  rewrite Hr in Hs. simpl in Hs. subst tr. reflexivity.
Qed.

Lemma send_email_events (environ : gmap string string) (w : World)
    (subject body : string) :
  exists headers payload,
    send_email environ w subject body =
    ([HttpPost "https://api.resend.com/emails" headers payload],
     snd (json_of_reply (email_api w headers payload))) /\
    headers =
      [("Authorization", "Bearer " +:+ default "None" (RESEND_API_KEY environ));
       ("Content-Type", "application/json")] /\
    payload =
      {| email_from := "RescueTime Report <onboarding@resend.dev>";
         email_to := [EMAIL_TO environ];
         email_subject := subject;
         email_html :=
           "<pre style='font-family: monospace; white-space: pre-wrap;'>"
           +:+ body +:+ "</pre>" |}.
Proof.
  eexists _, _. split; [|split; reflexivity].
  unfold send_email, io_bind, emit.
  destruct (json_of_reply _) as [tr r] eqn:Hr.
  match type of Hr with json_of_reply ?x = _ =>
    pose proof (json_of_reply_silent x) as Hs end.
  rewrite Hr in Hs. simpl in Hs. subst tr. reflexivity.
Qed.

(** The course of a run in which both keys are set: it stops at the first
    of the three stages that raises. *)
Lemma main_cases (environ : gmap string string) (w : World) :
  truthy_str (RESCUETIME_API_KEY environ) = true ->
  truthy_str (RESEND_API_KEY environ) = true ->
  let started := Print "Récupération des données RescueTime..." in
  let rendering := Print "Génération du rapport..." in
  let sending := Print "Envoi de l'email..." in
  let subject := "📊 Rapport RescueTime - " +:+ strftime_dmY (now_main w) in
  exists params,
    fst (get_rescuetime_data environ w) = [HttpGet "https://www.rescuetime.com/anapi/data" params] /\
    match snd (get_rescuetime_data environ w) with
    | Raise e => main environ w = ([started; HttpGet "https://www.rescuetime.com/anapi/data" params], Raise e)
    | Ok data =>
        match generate_report (now_report w) data with
        | Raise e => main environ w = ([started; HttpGet "https://www.rescuetime.com/anapi/data" params; rendering], Raise e)
        | Ok report =>
            exists headers payload,
              fst (send_email environ w subject report) = [HttpPost "https://api.resend.com/emails" headers payload] /\
              headers =
                [("Authorization",
                  "Bearer " +:+ default "None" (RESEND_API_KEY environ));
                 ("Content-Type", "application/json")] /\
              payload =
                {| email_from := "RescueTime Report <onboarding@resend.dev>";
                   email_to := [EMAIL_TO environ];
                   email_subject := subject;
                   email_html :=
                     "<pre style='font-family: monospace; white-space: pre-wrap;'>"
                     +:+ report +:+ "</pre>" |} /\
              match snd (send_email environ w subject report) with
              | Raise e =>
                  main environ w =
                  ([started; HttpGet "https://www.rescuetime.com/anapi/data" params; rendering; sending;
                    HttpPost "https://api.resend.com/emails" headers payload], Raise e)
              | Ok result =>
                  main environ w =
                  ([started; HttpGet "https://www.rescuetime.com/anapi/data" params; rendering; sending;
                    HttpPost "https://api.resend.com/emails" headers payload;
                    Print ("Email envoyé avec succès ! ID: "
                           +:+ default "None" (result !! "id"))],
                   Ok tt)
              end
        end
    end.
Proof.
  intros H1 H2 started rendering sending subject.
  destruct (get_rescuetime_data_events environ w) as (params & Hget & _).
  exists params. split; [rewrite Hget; reflexivity|].
  unfold main. rewrite H1, H2. simpl negb. cbv iota.
  rewrite Hget. simpl snd.
  destruct (snd (json_of_reply (analytics_api w params))) as [data|e];
    [|reflexivity].
  unfold io_bind at 1 2. simpl.
  destruct (generate_report (now_report w) data) as [report|e];
    [|reflexivity].
  simpl.
  destruct (send_email_events environ w subject report)
    as (headers & payload & Hsend & Hheaders & Hpayload).
  exists headers, payload.
  split; [rewrite Hsend; reflexivity|].
  split; [exact Hheaders|]. split; [exact Hpayload|].
  fold subject. rewrite Hsend. simpl snd.
  destruct (snd (json_of_reply (email_api w headers payload))) as [result|e];
    reflexivity.
Qed.

(** X13: a key set to the empty string counts as missing: the run raises
    [ValueError] before any event; the message names the analytics key
    when that one is unusable, the email key otherwise. *)
Theorem empty_key_counts_as_missing (environ : gmap string string) (w : World) :
  RESCUETIME_API_KEY environ = Some "" \/ RESEND_API_KEY environ = Some "" ->
  main environ w =
  ([], Raise (ValueError
                (if truthy_str (RESCUETIME_API_KEY environ)
                 then "RESEND_API_KEY non définie"
                 else "RESCUETIME_API_KEY non définie"))).
Proof.
  intros Hempty. unfold main.
  destruct (truthy_str (RESCUETIME_API_KEY environ)) eqn:H1; simpl;
    [|reflexivity].
  destruct Hempty as [H|H]; rewrite H in *; [discriminate|]. reflexivity.
Qed.

(** X14: with both keys set, a fetch that raises ends the run with that
    exception right after the GET: no report is generated and nothing is
    posted. *)
Theorem fetch_failure_stops_the_run (environ : gmap string string) (w : World)
    (e : exn) :
  truthy_str (RESCUETIME_API_KEY environ) = true ->
  truthy_str (RESEND_API_KEY environ) = true ->
  snd (get_rescuetime_data environ w) = Raise e ->
  exists params,
    main environ w =
    ([Print "Récupération des données RescueTime...";
      HttpGet "https://www.rescuetime.com/anapi/data" params],
     Raise e) /\
    List.filter is_post (fst (main environ w)) = [].
Proof.
  intros H1 H2 Hfetch.
  destruct (main_cases environ w H1 H2) as (params & _ & Hmain).
  rewrite Hfetch in Hmain. exists params.
  split; [exact Hmain | rewrite Hmain; reflexivity].
Qed.

(** X15: when the fetched data make the generator raise, the run ends
    with that exception and no email is posted. *)
Theorem report_failure_sends_nothing (environ : gmap string string) (w : World)
    (data : gmap string member) (e : exn) :
  truthy_str (RESCUETIME_API_KEY environ) = true ->
  truthy_str (RESEND_API_KEY environ) = true ->
  snd (get_rescuetime_data environ w) = Ok data ->
  generate_report (now_report w) data = Raise e ->
  snd (main environ w) = Raise e /\
  List.filter is_post (fst (main environ w)) = [] /\
  length (List.filter is_get (fst (main environ w))) = 1%nat.
Proof.
  intros H1 H2 Hfetch Hreport.
  destruct (main_cases environ w H1 H2) as (params & _ & Hmain).
  rewrite Hfetch, Hreport in Hmain. rewrite Hmain. repeat split.
Qed.

(** X16: when the POST raises, the run ends with that exception; the POST
    is its last event, so no success message is printed. *)
Theorem send_failure_is_propagated (environ : gmap string string) (w : World)
    (data : gmap string member) (report : string) (e : exn) :
  truthy_str (RESCUETIME_API_KEY environ) = true ->
  truthy_str (RESEND_API_KEY environ) = true ->
  snd (get_rescuetime_data environ w) = Ok data ->
  generate_report (now_report w) data = Ok report ->
  snd (send_email environ w
         ("📊 Rapport RescueTime - " +:+ strftime_dmY (now_main w)) report)
  = Raise e ->
  snd (main environ w) = Raise e /\
  exists post, is_post post = true /\ last (fst (main environ w)) = Some post.
Proof.
  intros H1 H2 Hfetch Hreport Hsend.
  destruct (main_cases environ w H1 H2) as (params & _ & Hmain).
  rewrite Hfetch, Hreport in Hmain.
  destruct Hmain as (headers & payload & _ & _ & _ & Hmain).
  rewrite Hsend in Hmain. rewrite Hmain. split; [reflexivity|].
  eexists. split; [|reflexivity]. reflexivity.
Qed.

Lemma main_without_key (environ : gmap string string) (w : World) :
  truthy_str (RESCUETIME_API_KEY environ) = false \/
  truthy_str (RESEND_API_KEY environ) = false ->
  exists msg, main environ w = ([], Raise (ValueError msg)).
Proof.
  intros Hfalsy. unfold main.
  destruct (truthy_str (RESCUETIME_API_KEY environ)); simpl; [|eauto].
  destruct (truthy_str (RESEND_API_KEY environ)); simpl; [|eauto].
  destruct Hfalsy; discriminate.
Qed.

(** X17: a run returns normally only when both keys are set and the
    fetch, the generator and the POST all succeeded; its events are then
    the GET, the POST of the generated report under the dated subject,
    and the four messages, the last one with the identifier returned by
    the email service. *)
Theorem successful_run (environ : gmap string string) (w : World)
    (events : list event) :
  main environ w = (events, Ok tt) ->
  let subject := "📊 Rapport RescueTime - " +:+ strftime_dmY (now_main w) in
  truthy_str (RESCUETIME_API_KEY environ) = true /\
  truthy_str (RESEND_API_KEY environ) = true /\
  exists data report result params headers payload,
    snd (get_rescuetime_data environ w) = Ok data /\
    generate_report (now_report w) data = Ok report /\
    snd (send_email environ w subject report) = Ok result /\
    email_subject payload = subject /\
    email_html payload =
      "<pre style='font-family: monospace; white-space: pre-wrap;'>"
      +:+ report +:+ "</pre>" /\
    events =
      [Print "Récupération des données RescueTime...";
       HttpGet "https://www.rescuetime.com/anapi/data" params;
       Print "Génération du rapport...";
       Print "Envoi de l'email...";
       HttpPost "https://api.resend.com/emails" headers payload;
       Print ("Email envoyé avec succès ! ID: "
              +:+ default "None" (result !! "id"))].
Proof.
  intros Hmain subject.
  destruct (truthy_str (RESCUETIME_API_KEY environ)) eqn:H1.
  2: { destruct (main_without_key environ w) as [msg Hmsg]; [left; exact H1|].
       congruence. }
  destruct (truthy_str (RESEND_API_KEY environ)) eqn:H2.
  2: { destruct (main_without_key environ w) as [msg Hmsg]; [right; exact H2|].
       congruence. }
  split; [reflexivity|]. split; [reflexivity|].
  destruct (main_cases environ w H1 H2) as (params & _ & Hcases).
  destruct (snd (get_rescuetime_data environ w)) as [data|e] eqn:Hfetch;
    [|congruence].
  destruct (generate_report (now_report w) data) as [report|e] eqn:Hreport;
    [|congruence].
  destruct Hcases as (headers & payload & _ & _ & Hpayload & Hcases).
  fold subject in Hcases, Hpayload.
  destruct (snd (send_email environ w subject report)) as [result|e] eqn:Hsend;
    [|congruence].
  exists data, report, result, params, headers, payload.
  rewrite Hcases in Hmain. injection Hmain as <-.
  rewrite Hpayload. repeat split; assumption.
Qed.

(** X18: whatever the environment and the answers of the two services, a
    run reaches the network at most twice: not at all, with the GET
    alone, or with the GET followed by one POST.  No email is posted
    without a fetch before it, and never more than one. *)
Theorem network_events_of_a_run (environ : gmap string string) (w : World) :
  let net := List.filter is_network (fst (main environ w)) in
  net = [] \/
  (exists get, is_get get = true /\ net = [get]) \/
  (exists get post, is_get get = true /\ is_post post = true /\ net = [get; post]).
Proof.
  intros net. unfold net.
  destruct (truthy_str (RESCUETIME_API_KEY environ)) eqn:H1.
  2: { destruct (main_without_key environ w) as [msg ->]; [left; exact H1|].
       left. reflexivity. }
  destruct (truthy_str (RESEND_API_KEY environ)) eqn:H2.
  2: { destruct (main_without_key environ w) as [msg ->]; [right; exact H2|].
       left. reflexivity. }
  destruct (main_cases environ w H1 H2) as (params & _ & Hcases).
  destruct (snd (get_rescuetime_data environ w)) as [data|e].
  - destruct (generate_report (now_report w) data) as [report|e].
    + destruct Hcases as (headers & payload & _ & _ & _ & Hcases).
      destruct (snd (send_email environ w _ report)) as [result|e];
        rewrite Hcases; right; right; simpl;
        (eexists _, _; split; [|split; [|reflexivity]]; reflexivity).
    + rewrite Hcases. right. left. simpl.
      eexists; split; [|reflexivity]; reflexivity.
  - rewrite Hcases. right. left. simpl.
    eexists; split; [|reflexivity]; reflexivity.
Qed.

(** X19: the fixed sentence of the empty case is mailed like a report:
    when the fetched object has no rows, or no ["rows"] member, the run
    still posts an email, whose body is that sentence. *)
Theorem no_data_is_mailed (environ : gmap string string) (w : World)
    (data : gmap string member) :
  truthy_str (RESCUETIME_API_KEY environ) = true ->
  truthy_str (RESEND_API_KEY environ) = true ->
  snd (get_rescuetime_data environ w) = Ok data ->
  data !! "rows" = None \/ data !! "rows" = Some (MRows []) ->
  exists headers payload,
    In (HttpPost "https://api.resend.com/emails" headers payload)
       (fst (main environ w)) /\
    email_html payload =
      "<pre style='font-family: monospace; white-space: pre-wrap;'>"
      +:+ no_data +:+ "</pre>".
Proof.
  intros H1 H2 Hfetch Hrows.
  assert (Hreport : generate_report (now_report w) data = Ok no_data).
  { unfold generate_report. destruct Hrows as [-> | ->]; reflexivity. }
  destruct (main_cases environ w H1 H2) as (params & _ & Hcases).
  rewrite Hfetch, Hreport in Hcases.
  destruct Hcases as (headers & payload & _ & _ & Hpayload & Hcases).
  exists headers, payload. split.
  - destruct (snd (send_email environ w _ no_data)) as [result|e];
      rewrite Hcases; simpl; tauto.
  - rewrite Hpayload. reflexivity.
Qed.

(** X20: the fetch asks for one day, the day of the clock, and returns
    the decoded object exactly when the service answers with a status
    outside 400..599 and a JSON body; a 4xx or 5xx status fails even with
    a JSON body. *)
Theorem fetch_outcome (environ : gmap string string) (w : World) :
  exists params,
    fst (get_rescuetime_data environ w) =
      [HttpGet "https://www.rescuetime.com/anapi/data" params] /\
    In ("restrict_begin", Some (strftime_Ymd (now_fetch w))) params /\
    In ("restrict_end", Some (strftime_Ymd (now_fetch w))) params /\
    In ("key", RESCUETIME_API_KEY environ) params /\
    forall data,
      snd (get_rescuetime_data environ w) = Ok data <->
      exists status,
        analytics_api w params = Reply status (Some data) /\
        (status < 400 \/ 600 <= status).
Proof.
  destruct (get_rescuetime_data_events environ w) as (params & Hget & Hparams).
  exists params. rewrite Hget. split; [reflexivity|].
  split; [rewrite Hparams; simpl; tauto|].
  split; [rewrite Hparams; simpl; tauto|].
  split; [rewrite Hparams; simpl; tauto|].
  intros data. simpl snd.
  destruct (analytics_api w params) as [|status [v|]]; simpl.
  - split; [discriminate | intros (s & Hs & _); discriminate].
  - destruct ((400 <=? status) && (status <? 600)) eqn:Hbad; simpl.
    + split; [discriminate|]. intros (s & [= -> ->] & Hs). lia.
    + split.
      * intros [= ->]. exists status. split; [reflexivity | lia].
      * intros (s & [= -> ->] & _). reflexivity.
  - destruct ((400 <=? status) && (status <? 600)); simpl;
      (split; [discriminate | intros (s & Hs & _); discriminate]).
Qed.

(** X21: every email a run posts goes to one recipient, the value of
    [EMAIL_TO] or the fixed address when the variable is not set, and is
    authorised with the non-empty email key of the environment. *)
Theorem posted_email_recipient_and_key (environ : gmap string string)
    (w : World) (url : string) (headers : list (string * string))
    (payload : email) :
  In (HttpPost url headers payload) (fst (main environ w)) ->
  email_to payload = [default "lucjager67@gmail.com" (environ !! "EMAIL_TO")] /\
  exists key,
    environ !! "RESEND_API_KEY" = Some key /\ key <> "" /\
    In ("Authorization", "Bearer " +:+ key) headers.
Proof.
  intros Hin.
  destruct (truthy_str (RESCUETIME_API_KEY environ)) eqn:H1.
  2: { destruct (main_without_key environ w) as [msg Hmsg]; [left; exact H1|].
       rewrite Hmsg in Hin. destruct Hin. }
  destruct (truthy_str (RESEND_API_KEY environ)) eqn:H2.
  2: { destruct (main_without_key environ w) as [msg Hmsg]; [right; exact H2|].
       rewrite Hmsg in Hin. destruct Hin. }
  assert (Hkey : exists key, environ !! "RESEND_API_KEY" = Some key /\ key <> "").
  { unfold RESEND_API_KEY in H2.
    destruct (environ !! "RESEND_API_KEY") as [[|c key]|]; try discriminate.
    eexists. split; [reflexivity | discriminate]. }
  destruct (main_cases environ w H1 H2) as (params & _ & Hcases).
  destruct (snd (get_rescuetime_data environ w)) as [data|e].
  2: { rewrite Hcases in Hin. simpl in Hin.
       destruct Hin as [H|[H|[]]]; discriminate. }
  destruct (generate_report (now_report w) data) as [report|e].
  2: { rewrite Hcases in Hin. simpl in Hin.
       destruct Hin as [H|[H|[H|[]]]]; discriminate. }
  destruct Hcases as (headers' & payload' & _ & Hheaders & Hpayload & Hcases).
  assert (Hpost : HttpPost "https://api.resend.com/emails" headers' payload' =
                  HttpPost url headers payload).
  { destruct (snd (send_email environ w _ report)) as [result|e];
      rewrite Hcases in Hin; simpl in Hin;
      repeat (destruct Hin as [Hin|Hin]; try discriminate; try exact Hin);
      destruct Hin. }
  injection Hpost as _ <- <-. split.
  - rewrite Hpayload. reflexivity.
  - destruct Hkey as (key & Hk & Hne). exists key.
    split; [exact Hk|]. split; [exact Hne|].
    rewrite Hheaders. unfold RESEND_API_KEY. rewrite Hk. simpl. tauto.
Qed.

(** ** Hour labels and the clock *)

(** X22: for hours 0 to 23 the label has three characters and labels
    compare as the hours do, so the hour sections, which are sorted by
    label, are in chronological order. *)
Theorem hour_labels_ordered_like_hours (a b : datetime) :
  0 <= hour a < 24 -> 0 <= hour b < 24 ->
  String.length (strftime_Hh a) = 3%nat /\
  (String.leb (strftime_Hh a) (strftime_Hh b) = true <-> hour a <= hour b) /\
  (strftime_Hh a = strftime_Hh b <-> hour a = hour b).
Proof.
  unfold strftime_Hh. intros Ha Hb.
  assert (Hn : exists n : nat, hour a = Z.of_nat n /\ (n < 24)%nat)
    by (exists (Z.to_nat (hour a)); lia).
  assert (Hm : exists m : nat, hour b = Z.of_nat m /\ (m < 24)%nat)
    by (exists (Z.to_nat (hour b)); lia).
  destruct Hn as (n & -> & Hn). destruct Hm as (m & -> & Hm).
  do 24 (destruct n as [|n];
         [do 24 (destruct m as [|m];
                 [vm_compute; repeat split; intros; congruence|]); lia|]).
  lia.
Qed.

End MoreProperties.

(** * The report on concrete rows *)

Example sample_rows_totals : aggregate (parser := parse_timestamp) sample_rows = Ok sample_totals.
Proof. vm_compute. reflexivity. Qed.

Example busy_rows_totals : aggregate (parser := parse_timestamp) busy_rows = Ok busy_totals.
Proof. vm_compute. reflexivity. Qed.

Example sample_report :
  generate_report (parser := parse_timestamp) sample_now sample_data =
  Ok "# 📊 Rapport RescueTime - 15/01/2024

**Temps total suivi** : 1h30
**Temps productif** : 1h00 (66%)
**Temps distrayant** : 30min (33%)

---

## 🕐 Détail par heure

### 09h - 1h30
- **A** (1h00) 🟢 Très productif
- **B** (30min) 🔴 Très distrayant

---

## 📂 Récapitulatif par catégorie

| Catégorie | Temps |
|-----------|-------|
| Work | 1h00 |
| Social | 30min |
".
Proof. vm_compute. reflexivity. Qed.

(** In the busiest hour of [busy_rows] four activities were recorded and
    the three longest are listed, longest first. *)
Example busy_top_activities :
  map name (activities (bucket_at busy_totals "09h")) =
    ["mail"; "editor"; "chat"; "terminal"] /\
  map name (top_activities (bucket_at busy_totals "09h")) =
    ["editor"; "terminal"; "mail"].
Proof. vm_compute. auto. Qed.

(** A text under ["rows"] is not an array of rows: the run stops in the
    first iteration. *)
Example text_rows_raise :
  generate_report (parser := parse_timestamp) sample_now {[ "rows" := MText "oops" ]} =
  Raise IndexError.
Proof. vm_compute. reflexivity. Qed.

(** A timestamp the parser rejects is the one way the loop can fail. *)
Example bad_timestamp_raises :
  exists msg,
    aggregate (parser := parse_timestamp) [mk_row "yesterday" 60 1 "x" "A" 0] =
    Raise (ValueError msg).
Proof. vm_compute. eauto. Qed.

(** A complete run with both keys set: one GET, then one POST. *)
Example sample_run_events :
  let run := main (parser := parse_timestamp)
               {[ "RESCUETIME_API_KEY" := "k1"; "RESEND_API_KEY" := "k2" ]}
               sample_world in
  snd run = Ok tt /\
  map is_network (fst run) = [false; true; false; false; true; false].
Proof. vm_compute. auto. Qed.

(** ** The category table *)

(** C6: the rows of the category table are the entries of
    [category_totals], each category once with the seconds of its rows,
    in descending order of total; the order of two categories with equal
    totals is not fixed by the categories: it follows the order of the
    rows. *)
Theorem category_table_descending (parser : IsoParser)
    (rows : list ActivityRow) :
  Forall well_formed rows ->
  (exists t : Totals,
     aggregate rows = Ok t /\
     (forall now pp pd, exists head,
        report_with now t pp pd =
        head +:+ String.concat "" (map render_category (sorted_categories t))) /\
     StronglySorted (not_smaller snd) (sorted_categories t) /\
     Permutation (sorted_categories t) (category_totals t) /\
     NoDup (map fst (sorted_categories t)) /\
     (forall c n, In (c, n) (sorted_categories t) ->
                  n = seconds_where (has_category c) rows)) /\
  (Permutation tie_rows_ab tie_rows_ba /\
   sorted_categories (totals_of tie_rows_ab) = [("A", 60); ("B", 60)] /\
   sorted_categories (totals_of tie_rows_ba) = [("B", 60); ("A", 60)]).
Proof.
  intros Hwf. split.
  - destruct (aggregate_from_well_formed rows Hwf initial_totals) as [t Hrun].
    exists t. split; [exact Hrun|].
    pose proof (py_sorted_perm (descending snd) (category_totals t)) as Hperm.
    destruct (category_totals_value rows t Hrun) as [Hnd Hval].
    split; [intros; eexists; reflexivity|].
    split; [apply descending_sorted|].
    split; [exact Hperm|].
    split.
    + unfold keys in Hnd. apply NoDup_ListNoDup.
      apply (Permutation_NoDup (l := map fst (category_totals t))).
      * apply Permutation_map. symmetry. exact Hperm.
      * apply NoDup_ListNoDup. exact Hnd.
    + intros c n Hin. apply Hval.
      apply (Permutation_in _ Hperm). exact Hin.
  - split; [apply perm_swap|]. split; vm_compute; reflexivity.
Qed.

(** ** The theorems at the sample inputs *)

Lemma busy_rows_well_formed :
  Forall (well_formed (parser := parse_timestamp)) busy_rows.
Proof. repeat constructor; vm_compute; eexists; reflexivity. Defined.

Lemma sample_rows_well_formed :
  Forall (well_formed (parser := parse_timestamp)) sample_rows.
Proof. repeat constructor; vm_compute; eexists; reflexivity. Defined.

Lemma totals_agree_at_busy_rows :
  Forall (well_formed (parser := parse_timestamp)) busy_rows /\
  exists t : Totals,
    aggregate (parser := parse_timestamp) busy_rows = Ok t /\
    weight_sum total_seconds (hourly_data t) = weight_sum id (category_totals t) /\
    weight_sum id (category_totals t) = total_time t /\
    total_time t = sum_Z (map row_seconds busy_rows).
Proof.
  split; [exact busy_rows_well_formed|].
  apply (totals_agree (parser := parse_timestamp) busy_rows).
  exact busy_rows_well_formed.
Defined.

Lemma percentages_at_busy_rows :
  Forall (fun row => 0 <= row_seconds row) busy_rows /\
  exists (t : Totals) (pp pd : Z),
    aggregate (parser := parse_timestamp) busy_rows = Ok t /\
    percentage (total_productive t) (total_time t) = Ok pp /\
    percentage (total_distracting t) (total_time t) = Ok pd.
Proof.
  assert (Hpos : Forall (fun row => 0 <= row_seconds row) busy_rows)
    by (repeat constructor; vm_compute; discriminate).
  split; [exact Hpos|].
  destruct (percentages_truncated_and_bounded (parser := parse_timestamp)
              sample_now busy_rows busy_rows_well_formed Hpos)
    as (t & pp & pd & Hrun & Hpp & Hpd & _).
  exists t, pp, pd. repeat split; assumption.
Defined.

Lemma classification_at_busy_rows :
  (exists t : Totals,
     aggregate (parser := parse_timestamp) busy_rows = Ok t /\
     total_productive t = seconds_where is_productive busy_rows /\
     total_distracting t = seconds_where is_distracting busy_rows) /\
  exists t2,
    aggregate (parser := parse_timestamp)
      [mk_row "2024-01-15T09:00:00" 3600 1 "A" "Work" 2;
       mk_row "2024-01-15T09:00:00" 1800 1 "B" "Social" (-2)] = Ok t2 /\
    total_time t2 = 5400 /\ total_productive t2 = 3600 /\
    total_distracting t2 = 1800.
Proof.
  destruct (seconds_classified_by_score (parser := parse_timestamp)
              busy_rows "2024-01-15T09:00:00" 1 1)
    as [(t & Hrun & Hp & Hd & _) (t2 & Hrun2 & Htt & Htp & _ & Htd & _)].
  - exact busy_rows_well_formed.
  - vm_compute. eexists; reflexivity.
  - split.
    + exists t. repeat split; assumption.
    + exists t2. repeat split; assumption.
Defined.

Lemma empty_rows_at_sample :
  ({[ "rows" := MRows [] ]} : gmap string member) !! "rows" = Some (MRows []) /\
  generate_report (parser := parse_timestamp) sample_now {[ "rows" := MRows [] ]} =
  Ok "Aucune donnée RescueTime disponible pour aujourd'hui.".
Proof.
  split; [vm_compute; reflexivity|].
  apply (empty_rows_give_no_data (parser := parse_timestamp)).
  vm_compute; reflexivity.
Defined.

Lemma missing_rows_key_at_notes_only :
  ({[ "notes" := MText "no rows today" ]} : gmap string member) !! "rows" = None /\
  generate_report (parser := parse_timestamp) sample_now
    {[ "notes" := MText "no rows today" ]} = Ok no_data.
Proof.
  split; [vm_compute; reflexivity|].
  apply (missing_rows_key_gives_no_data (parser := parse_timestamp)).
  vm_compute; reflexivity.
Defined.

Lemma report_at_sample_data :
  sample_data !! "rows" = Some (MRows sample_rows) /\
  sample_rows <> [] /\
  exists report,
    generate_report (parser := parse_timestamp) sample_now sample_data = Ok report /\
    report <> no_data.
Proof.
  assert (Hne : sample_rows <> []) by discriminate.
  assert (Hdata : sample_data !! "rows" = Some (MRows sample_rows))
    by (vm_compute; reflexivity).
  repeat split; try assumption.
  destruct (well_formed_rows_give_a_report (parser := parse_timestamp)
              sample_now sample_data sample_rows Hdata Hne
              sample_rows_well_formed)
    as (t & pp & pd & _ & Hreport & Hnot).
  eauto.
Defined.

Lemma category_table_at_busy_rows :
  exists t : Totals,
    aggregate (parser := parse_timestamp) busy_rows = Ok t /\
    StronglySorted (not_smaller snd) (sorted_categories t) /\
    Permutation (sorted_categories t) (category_totals t).
Proof.
  destruct (category_table_descending parse_timestamp busy_rows
              busy_rows_well_formed)
    as [(t & Hrun & _ & Hsorted & Hperm & _) _].
  exists t. repeat split; assumption.
Defined.


Lemma missing_key_at_empty_environment :
  RESCUETIME_API_KEY ∅ = None /\
  (exists msg,
     main (parser := parse_timestamp) ∅ sample_world = ([], Raise (ValueError msg))) /\
  List.filter is_network (fst (main (parser := parse_timestamp) ∅ sample_world)) = [].
Proof.
  split; [vm_compute; reflexivity|].
  apply (missing_key_fails_before_network (parser := parse_timestamp)).
  left. vm_compute; reflexivity.
Defined.

(** ** The further properties at the sample inputs *)

Lemma whole_minutes_at_3661 :
  3661 / 60 = 3719 / 60 /\ format_duration 3661 = format_duration 3719.
Proof.
  split; [reflexivity|].
  apply (format_duration_whole_minutes 3661 3719). reflexivity.
Defined.

Lemma shape_at_3661_and_90 :
  (exists mm, format_duration 3661 = str_int (3661 / 3600) +:+ "h" +:+ mm /\
              exists m, m = 3661 mod 3600 / 60 /\
                        mm = (if m <? 10 then "0" +:+ str_int m else str_int m)) /\
  (exists m, format_duration 90 = str_int m +:+ "min" /\ m = 90 mod 3600 / 60).
Proof.
  split.
  - destruct (proj2 (format_duration_shape 3661) ltac:(lia))
      as (mm & _ & _ & Htext & m & _ & Hm & _ & Hmm & _).
    exists mm. split; [exact Htext|]. exists m. split; assumption.
  - destruct (proj1 (format_duration_shape 90) ltac:(lia))
      as (m & _ & Htext & Hm & _).
    exists m. split; assumption.
Defined.

Lemma negative_at_minus_one :
  -1 < 0 /\ format_duration (-1) = format_duration (-1 mod 3600).
Proof.
  split; [lia|].
  apply (proj1 (format_duration_negative (-1) ltac:(lia))).
Defined.


Lemma bad_rows_rejected :
  Exists (fun row => ~ well_formed (parser := parse_timestamp) row) bad_rows.
Proof.
  constructor. intros [d Hd]. vm_compute in Hd. discriminate.
Defined.

Lemma rejected_timestamp_at_bad_rows :
  ({[ "rows" := MRows bad_rows ]} : gmap string member) !! "rows"
    = Some (MRows bad_rows) /\
  exists msg,
    generate_report (parser := parse_timestamp) sample_now
      {[ "rows" := MRows bad_rows ]} = Raise (ValueError msg).
Proof.
  split; [vm_compute; reflexivity|].
  apply (rejected_timestamp_aborts_report (parser := parse_timestamp)
           sample_now _ bad_rows).
  - vm_compute; reflexivity.
  - exact bad_rows_rejected.
Defined.

Lemma first_seen_order_at_busy_rows :
  exists t : Totals,
    aggregate (parser := parse_timestamp) busy_rows = Ok t /\
    keys (category_totals t) = first_seen [] (map row_category busy_rows).
Proof.
  destruct (equal_totals_keep_first_seen_order (parser := parse_timestamp)
              busy_rows busy_rows_well_formed) as (t & Hrun & Hkeys & _).
  exists t. split; assumption.
Defined.

Lemma row_order_at_busy_rows :
  exists t : Totals,
    aggregate (parser := parse_timestamp) busy_rows = Ok t /\
    forall h,
      activities (bucket_at t h) =
      map activity_of (List.filter (in_hour (parser := parse_timestamp) h) busy_rows).
Proof.
  destruct (equal_durations_keep_row_order (parser := parse_timestamp)
              busy_rows busy_rows_well_formed) as (t & Hrun & Hall).
  exists t. split; [exact Hrun|]. intros h. apply (Hall h).
Defined.

Lemma bucket_fields_at_busy_rows :
  exists t : Totals,
    aggregate (parser := parse_timestamp) busy_rows = Ok t /\
    forall h,
      total_seconds (bucket_at t h) =
      activity_seconds (fun _ => true) (bucket_at t h).
Proof.
  destruct (bucket_fields_match_activities (parser := parse_timestamp)
              busy_rows busy_rows_well_formed) as (t & Hrun & Hall).
  exists t. split; [exact Hrun|]. intros h. apply (Hall h).
Defined.

Lemma hour_sections_at_busy_rows :
  exists t : Totals,
    aggregate (parser := parse_timestamp) busy_rows = Ok t /\
    NoDup (py_sorted str_ascending (keys (hourly_data t))) /\
    StronglySorted (fun a b => String.leb a b = true)
      (py_sorted str_ascending (keys (hourly_data t))).
Proof.
  destruct (hour_sections_ascending (parser := parse_timestamp)
              busy_rows busy_rows_well_formed)
    as (t & Hrun & _ & Hsorted & Hnd & _).
  exists t. repeat split; assumption.
Defined.

Lemma tie_rows_well_formed :
  Forall (well_formed (parser := parse_timestamp)) tie_rows_ab.
Proof. repeat constructor; vm_compute; eexists; reflexivity. Defined.

Lemma row_order_at_tie_rows :
  Permutation tie_rows_ab tie_rows_ba /\
  exists t t' : Totals,
    aggregate (parser := parse_timestamp) tie_rows_ab = Ok t /\
    aggregate (parser := parse_timestamp) tie_rows_ba = Ok t' /\
    total_time t = total_time t'.
Proof.
  assert (Hperm : Permutation tie_rows_ab tie_rows_ba) by apply perm_swap.
  split; [exact Hperm|].
  destruct (totals_independent_of_row_order (parser := parse_timestamp)
              tie_rows_ab tie_rows_ba tie_rows_well_formed Hperm)
    as (t & t' & Hrun & Hrun' & Htt & _).
  exists t, t'. repeat split; assumption.
Defined.

Lemma percentages_sum_at_busy_rows :
  exists (t : Totals) (pp pd : Z),
    aggregate (parser := parse_timestamp) busy_rows = Ok t /\
    percentage (total_productive t) (total_time t) = Ok pp /\
    percentage (total_distracting t) (total_time t) = Ok pd /\
    0 <= pp + pd <= 100.
Proof.
  apply (percentages_sum_at_most_100 (parser := parse_timestamp) busy_rows).
  - exact busy_rows_well_formed.
  - repeat constructor; vm_compute; discriminate.
Defined.


Lemma empty_key_at_blank_environment :
  RESCUETIME_API_KEY {[ "RESCUETIME_API_KEY" := ""; "RESEND_API_KEY" := "k2" ]}
    = Some "" /\
  main (parser := parse_timestamp)
    {[ "RESCUETIME_API_KEY" := ""; "RESEND_API_KEY" := "k2" ]} sample_world =
  ([], Raise (ValueError "RESCUETIME_API_KEY non définie")).
Proof.
  split; [vm_compute; reflexivity|].
  etransitivity.
  - apply (empty_key_counts_as_missing (parser := parse_timestamp)
             {[ "RESCUETIME_API_KEY" := ""; "RESEND_API_KEY" := "k2" ]}
             sample_world).
    left. vm_compute; reflexivity.
  - vm_compute; reflexivity.
Defined.

Lemma fetch_failure_at_offline_world :
  snd (get_rescuetime_data sample_environ offline_world) = Raise ConnectionError /\
  List.filter is_post
    (fst (main (parser := parse_timestamp) sample_environ offline_world)) = [].
Proof.
  split; [vm_compute; reflexivity|].
  destruct (fetch_failure_stops_the_run (parser := parse_timestamp)
              sample_environ offline_world ConnectionError)
    as (params & _ & Hnone); [vm_compute; reflexivity .. |].
  exact Hnone.
Defined.

Lemma report_failure_at_bad_rows_world :
  snd (get_rescuetime_data sample_environ bad_rows_world)
    = Ok {[ "rows" := MRows bad_rows ]} /\
  List.filter is_post
    (fst (main (parser := parse_timestamp) sample_environ bad_rows_world)) = [].
Proof.
  split; [vm_compute; reflexivity|].
  destruct (report_failure_sends_nothing (parser := parse_timestamp)
              sample_environ bad_rows_world {[ "rows" := MRows bad_rows ]}
              (ValueError "Invalid isoformat string"))
    as (_ & Hnone & _); [vm_compute; reflexivity .. |].
  exact Hnone.
Defined.

Lemma send_failure_at_rejecting_mail_world :
  snd (get_rescuetime_data sample_environ rejecting_mail_world) = Ok sample_data /\
  snd (main (parser := parse_timestamp) sample_environ rejecting_mail_world)
    = Raise (HTTPError 422).
Proof.
  split; [vm_compute; reflexivity|].
  destruct (send_failure_is_propagated (parser := parse_timestamp)
              sample_environ rejecting_mail_world sample_data
              (match generate_report (parser := parse_timestamp)
                       sample_now sample_data with
               | Ok report => report
               | Raise _ => ""
               end)
              (HTTPError 422))
    as (Hraise & _); [vm_compute; reflexivity .. |].
  exact Hraise.
Defined.

Lemma successful_run_at_sample_world :
  snd (main (parser := parse_timestamp) sample_environ sample_world) = Ok tt /\
  truthy_str (RESCUETIME_API_KEY sample_environ) = true /\
  truthy_str (RESEND_API_KEY sample_environ) = true.
Proof.
  split; [vm_compute; reflexivity|].
  destruct (successful_run (parser := parse_timestamp) sample_environ sample_world
              (fst (main (parser := parse_timestamp) sample_environ sample_world)))
    as (H1 & H2 & _); [vm_compute; reflexivity|].
  split; assumption.
Defined.

Lemma no_data_mailed_at_quiet_day :
  quiet_day !! "rows" = None /\
  exists headers payload,
    In (HttpPost "https://api.resend.com/emails" headers payload)
       (fst (main (parser := parse_timestamp) sample_environ quiet_day_world)) /\
    email_html payload =
      "<pre style='font-family: monospace; white-space: pre-wrap;'>"
      +:+ no_data +:+ "</pre>".
Proof.
  split; [vm_compute; reflexivity|].
  apply (no_data_is_mailed (parser := parse_timestamp)
           sample_environ quiet_day_world quiet_day);
    [vm_compute; reflexivity .. |].
  left. vm_compute; reflexivity.
Defined.

Lemma recipient_at_sample_world :
  exists url headers payload,
    In (HttpPost url headers payload)
       (fst (main (parser := parse_timestamp) sample_environ sample_world)) /\
    email_to payload = ["lucjager67@gmail.com"].
Proof.
  assert (Hnth : exists url headers payload,
            nth_error
              (fst (main (parser := parse_timestamp) sample_environ sample_world))
              4 = Some (HttpPost url headers payload))
    by (vm_compute; eauto).
  destruct Hnth as (url & headers & payload & Hnth).
  apply nth_error_In in Hnth.
  exists url, headers, payload. split; [exact Hnth|].
  destruct (posted_email_recipient_and_key (parser := parse_timestamp)
              sample_environ sample_world url headers payload Hnth)
    as (Hto & _).
  rewrite Hto. vm_compute. reflexivity.
Defined.

Lemma hour_labels_at_9_and_10 :
  String.leb (strftime_Hh (mk_datetime 2024 1 15 9 0 0))
             (strftime_Hh (mk_datetime 2024 1 15 10 0 0)) = true.
Proof.
  apply (proj1 (proj2 (hour_labels_ordered_like_hours
                         (mk_datetime 2024 1 15 9 0 0)
                         (mk_datetime 2024 1 15 10 0 0)
                         ltac:(simpl; lia) ltac:(simpl; lia)))).
  simpl. lia.
Defined.
